(** * fatsecret_backend: the FatSecret proxy and its token cache

    A shallow embedding of [src/fatsecret_backend.py].  The Flask handlers
    become functions in a state-and-exception monad over the two module
    globals ([cached_token], [token_expiry]); the wall clock and the
    upstream HTTP service are an environment that answers the n-th
    [datetime.now()] and the n-th [requests.post].  Values that travel
    through [json.loads] and [jsonify] are Python values ([pyval]). *)

From Stdlib Require Import ZArith QArith Qround List String Ascii Bool Lia.
From Stdlib Require Import DecimalString.
Import ListNotations.
Local Open Scope string_scope.
Local Open Scope Z_scope.
#[local] Set Warnings "-register-all".

(** ** Python values *)

(** A Python [float]: what [json.loads] yields for a number with a fraction
    or an exponent, and for the literals NaN, Infinity and -Infinity.  A
    finite float is a rational. *)
Inductive pyfloat : Type :=
| FNaN
| FInf (negative : bool)
| FFinite (q : Q).

(** The values [json.loads] produces and [jsonify] accepts; [PNone] is
    [None].  A dict keeps its insertion order; a key is looked up at its
    first binding. *)
Inductive pyval : Type :=
| PNone
| PBool (b : bool)
| PInt (n : Z)
| PFloat (f : pyfloat)
| PStr (s : string)
| PList (l : list pyval)
| PDict (d : list (string * pyval)).

Definition type_name (v : pyval) : string :=
  match v with
  | PNone => "NoneType"
  | PBool _ => "bool"
  | PInt _ => "int"
  | PFloat _ => "float"
  | PStr _ => "str"
  | PList _ => "list"
  | PDict _ => "dict"
  end.

(** Truth value testing ([if v], [not v], [a and b]). *)
Definition truthy (v : pyval) : bool :=
  match v with
  | PNone => false
  | PBool b => b
  | PInt n => negb (n =? 0)
  | PFloat (FFinite q) => negb (Qnum q =? 0)
  | PFloat _ => true
  | PStr s => negb (s =? "")%string
  | PList l => match l with [] => false | _ :: _ => true end
  | PDict d => match d with [] => false | _ :: _ => true end
  end.

Definition is_dict (v : pyval) : bool :=
  match v with PDict _ => true | _ => false end.

(** ** Strings *)

(** [needle in hay] on two [str]. *)
Fixpoint contains (needle hay : string) : bool :=
  String.prefix needle hay
  || match hay with
     | EmptyString => false
     | String _ rest => contains needle rest
     end.

Definition lower_ascii (c : ascii) : ascii :=
  let n := nat_of_ascii c in
  if (Nat.leb 65 n && Nat.leb n 90)%bool then ascii_of_nat (n + 32) else c.

(** [s.lower()], on the ASCII letters. *)
Fixpoint lower (s : string) : string :=
  match s with
  | EmptyString => EmptyString
  | String c rest => String (lower_ascii c) (lower rest)
  end.

(** [str(n)] for an [int], as the f-strings format a status code. *)
Definition str_of_int (n : Z) : string := NilEmpty.string_of_int (Z.to_int n).

(** ** Exceptions *)

(** The exception classes the handlers can meet.  [RequestsJSONDecodeError]
    is [requests.exceptions.JSONDecodeError], which derives from both
    [requests.RequestException] and [json.JSONDecodeError].  [BadRequest]
    and [UnsupportedMediaType] are werkzeug's HTTP exceptions 400 and 415,
    which [request.json] raises. *)
Inductive exn_class : Type :=
| BadRequest
| UnsupportedMediaType
| RequestException
| RequestsJSONDecodeError
| JSONDecodeError
| ValueError
| KeyError
| TypeError
| AttributeError
| OverflowError
| UnboundLocalError
| OtherException.

Record exn : Type := mkExn { exn_kind : exn_class; exn_str : string }.

(** [isinstance(e, requests.RequestException)] *)
Definition is_RequestException (e : exn) : bool :=
  match exn_kind e with
  | RequestException | RequestsJSONDecodeError => true
  | _ => false
  end.

(** [isinstance(e, json.JSONDecodeError)] *)
Definition is_JSONDecodeError (e : exn) : bool :=
  match exn_kind e with
  | JSONDecodeError | RequestsJSONDecodeError => true
  | _ => false
  end.

(** [isinstance(e, ValueError)]; [json.JSONDecodeError] derives from it. *)
Definition is_ValueError (e : exn) : bool :=
  match exn_kind e with
  | ValueError | JSONDecodeError | RequestsJSONDecodeError => true
  | _ => false
  end.

Inductive result (A : Type) : Type :=
| Ok (a : A)
| Raise (e : exn).
Arguments Ok {A} a.
Arguments Raise {A} e.

Definition rbind {A B : Type} (r : result A) (k : A -> result B) : result B :=
  match r with
  | Ok a => k a
  | Raise e => Raise e
  end.

Declare Scope py_scope.
Delimit Scope py_scope with py.
Notation "'let?' x ':=' r 'in' k" := (rbind r (fun x => k))
  (at level 10, x pattern, r at level 100, k at level 200) : py_scope.
Local Open Scope py_scope.

(** ** Operations on Python values *)

Fixpoint dict_get (d : list (string * pyval)) (k : string) : option pyval :=
  match d with
  | [] => None
  | (k', v) :: rest => if (k' =? k)%string then Some v else dict_get rest k
  end.

Definition has_key (d : list (string * pyval)) (k : string) : bool :=
  match dict_get d k with Some _ => true | None => false end.

Definition no_attribute (v : pyval) (attr : string) : exn :=
  mkExn AttributeError
        ("'" ++ type_name v ++ "' object has no attribute '" ++ attr ++ "'").

(** [v.get(k, default)]: only a dict has the method. *)
Definition py_get (v : pyval) (k : string) (default : pyval) : result pyval :=
  match v with
  | PDict d => Ok (match dict_get d k with Some x => x | None => default end)
  | _ => Raise (no_attribute v "get")
  end.

Definition is_str (k : string) (v : pyval) : bool :=
  match v with PStr s => (s =? k)%string | _ => false end.

(** [k in v] for a string [k]: a key of a dict, an element of a list, a
    substring of a str; the other values are not containers. *)
Definition py_in (k : string) (v : pyval) : result bool :=
  match v with
  | PDict d => Ok (has_key d k)
  | PList l => Ok (existsb (is_str k) l)
  | PStr s => Ok (contains k s)
  | _ => Raise (mkExn TypeError
                  ("argument of type '" ++ type_name v ++ "' is not iterable"))
  end.

(** [v[k]] for a string [k]. *)
Definition py_getitem (v : pyval) (k : string) : result pyval :=
  match v with
  | PDict d =>
      match dict_get d k with
      | Some x => Ok x
      | None => Raise (mkExn KeyError ("'" ++ k ++ "'"))
      end
  | PList _ => Raise (mkExn TypeError "list indices must be integers or slices, not str")
  | PStr _ => Raise (mkExn TypeError "string indices must be integers")
  | _ => Raise (mkExn TypeError
                  ("'" ++ type_name v ++ "' object is not subscriptable"))
  end.

(** [v == n] for an int [n]: numbers compare by value, [True] is 1. *)
Definition py_eq_int (v : pyval) (n : Z) : bool :=
  match v with
  | PInt m => m =? n
  | PBool b => Z.b2z b =? n
  | PFloat (FFinite q) => Qeq_bool q (inject_Z n)
  | _ => false
  end.

(** [v.lower()]: a str method. *)
Definition py_lower (v : pyval) : result pyval :=
  match v with
  | PStr s => Ok (PStr (lower s))
  | _ => Raise (no_attribute v "lower")
  end.

(** [v.contains(arg)]: no value here has an attribute of that name (the
    substring test of a str is the operator [in]), so the attribute lookup
    raises. *)
Definition py_call_contains (v : pyval) (arg : string) : result bool :=
  Raise (no_attribute v "contains").

(** ** datetime and timedelta *)

(** A naive [datetime] is its number of microseconds since
    0001-01-01T00:00:00; a [timedelta] is a number of microseconds. *)
Definition usec_per_second : Z := 1000000.
Definition usec_per_day : Z := 86400 * usec_per_second.
(** [datetime.max] is 9999-12-31T23:59:59.999999, day 3652059. *)
Definition datetime_max : Z := 3652059 * usec_per_day - 1.
Definition timedelta_min : Z := - 999999999 * usec_per_day.
Definition timedelta_max : Z := 1000000000 * usec_per_day - 1.

Definition overflow (msg : string) : exn := mkExn OverflowError msg.

Definition timedelta_of_usec (us : Z) : result Z :=
  if (timedelta_min <=? us) && (us <=? timedelta_max) then Ok us
  else Raise (overflow "days; must have magnitude <= 999999999").

(** Rounding to the nearest integer, ties to even.  CPython rounds the
    fraction of a float through a double product; this is its exact value. *)
Definition round_half_even (q : Q) : Z :=
  let f := Qfloor q in
  let twice := Qfloor (2 * (q - inject_Z f))%Q in
  let tie := Qeq_bool (2 * (q - inject_Z f))%Q 1 in
  if tie then (if Z.even f then f else f + 1)
  else if twice =? 0 then f else f + 1.

(** [timedelta(seconds=v)] *)
Definition timedelta_seconds (v : pyval) : result Z :=
  match v with
  | PInt n => timedelta_of_usec (n * usec_per_second)
  | PBool b => timedelta_of_usec (Z.b2z b * usec_per_second)
  | PFloat (FFinite q) =>
      timedelta_of_usec (round_half_even (q * inject_Z usec_per_second)%Q)
  | PFloat FNaN => Raise (mkExn ValueError "cannot convert float NaN to integer")
  | PFloat (FInf _) => Raise (overflow "cannot convert float infinity to integer")
  | _ => Raise (mkExn TypeError
                  ("unsupported type for timedelta seconds component: "
                     ++ type_name v))
  end.

(** [t + d] for a datetime [t] and a timedelta [d] *)
Definition datetime_add (t d : Z) : result Z :=
  if (0 <=? t + d) && (t + d <=? datetime_max) then Ok (t + d)
  else Raise (overflow "date value out of range").

(** [(a - b).seconds] for two datetimes: the seconds field of the
    normalised timedelta (days, seconds, microseconds), between 0 and
    86399. *)
Definition timedelta_seconds_field (a b : Z) : Z :=
  ((a - b) mod usec_per_day) / usec_per_second.

(** [(a - b).total_seconds()] truncated to whole seconds, for comparison. *)
Definition whole_seconds_between (a b : Z) : Z := (a - b) / usec_per_second.

(** ** The world of a request *)

(** A [requests.Response] as the handlers read it: [status_code], [text],
    and the body parsed as JSON, which is what [json.loads(response.text)]
    and [response.json()] return or raise. *)
Record Response : Type := mkResponse {
  status_code : Z;
  text : string;
  json : result pyval
}.

(** An uploaded file of [request.files] (werkzeug's FileStorage). *)
Record FileStorage : Type := mkFile {
  filename : string;
  content : string;
  content_type : string
}.

(** The [Authorization] header of an outgoing request: [Basic] holds the
    [id:secret] string that is base64-encoded into it, [Bearer] the value
    interpolated after the word Bearer. *)
Inductive Authorization : Type :=
| Basic (credentials : string)
| Bearer (token : pyval).

(** The [data=] or [files=] argument of [requests.post]. *)
Inductive Payload : Type :=
| RawBody (body : string)
| FormData (fields : list (string * pyval))
| Multipart (fields : list (string * string)) (image : FileStorage).

Record Request : Type := mkRequest {
  url : string;
  authorization : Authorization;
  payload : Payload
}.

(** What lies outside the process: the credentials read from the
    environment variables, the value of the n-th [datetime.now()] and the
    outcome of the n-th [requests.post]. *)
Record Env : Type := mkEnv {
  FATSECRET_CLIENT_ID : string;
  FATSECRET_CLIENT_SECRET : string;
  clock : nat -> Z;
  network : nat -> result Response
}.

(** The two module globals, and the history of the effects: how many times
    the clock was read and which requests were posted, oldest first. *)
Record State : Type := mkState {
  cached_token : pyval;
  token_expiry : option Z;
  clock_reads : nat;
  sent : list Request
}.

(** A computation may update the state and then return or raise; what it
    assigned before raising stays assigned. *)
Definition M (A : Type) : Type := State -> result A * State.

Definition ret {A : Type} (a : A) : M A := fun s => (Ok a, s).

Definition bind {A B : Type} (m : M A) (k : A -> M B) : M B :=
  fun s =>
    match m s with
    | (Ok a, s') => k a s'
    | (Raise e, s') => (Raise e, s')
    end.

Notation "'let*' x ':=' m 'in' k" := (bind m (fun x => k))
  (at level 10, x pattern, m at level 100, k at level 200) : py_scope.
Notation "m ';;' k" := (bind m (fun _ => k))
  (at level 100, k at level 200, right associativity) : py_scope.

(** A pure computation that may raise. *)
Definition lift {A : Type} (r : result A) : M A := fun s => (r, s).

(** [try: m  except Exception as e: h e] *)
Definition try_except {A : Type} (m : M A) (h : exn -> M A) : M A :=
  fun s =>
    match m s with
    | (Ok a, s') => (Ok a, s')
    | (Raise e, s') => h e s'
    end.

(** The outcome of [m] as a value, for a [try] with several clauses. *)
Definition attempt {A : Type} (m : M A) : M (result A) :=
  fun s => let (r, s') := m s in (Ok r, s').

Definition get_cached_token : M pyval := fun s => (Ok (cached_token s), s).
Definition get_token_expiry : M (option Z) := fun s => (Ok (token_expiry s), s).

Definition set_cached_token (v : pyval) : M unit :=
  fun s => (Ok tt, mkState v (token_expiry s) (clock_reads s) (sent s)).

Definition set_token_expiry (t : option Z) : M unit :=
  fun s => (Ok tt, mkState (cached_token s) t (clock_reads s) (sent s)).

(** [datetime.now()] *)
Definition datetime_now (env : Env) : M Z :=
  fun s =>
    (Ok (clock env (clock_reads s)),
     mkState (cached_token s) (token_expiry s) (S (clock_reads s)) (sent s)).

(** [requests.post(...)]: the request joins the history whether the call
    returns or raises. *)
Definition requests_post (env : Env) (req : Request) : M Response :=
  fun s =>
    (network env (List.length (sent s)),
     mkState (cached_token s) (token_expiry s) (clock_reads s)
             (sent s ++ [req])%list).

(** A Flask view's return value [(jsonify(body), status)]. *)
Definition FlaskResponse : Type := (pyval * Z)%type.

(** [jsonify(v)]: the response body is the value itself. *)
Definition jsonify (v : pyval) : pyval := v.

(** ** /fatsecret_token *)

Definition token_url : string := "https://oauth.fatsecret.com/connect/token".

Definition token_request (env : Env) : Request :=
  mkRequest token_url
            (Basic (FATSECRET_CLIENT_ID env ++ ":" ++ FATSECRET_CLIENT_SECRET env))
            (RawBody "grant_type=client_credentials&scope=basic barcode").

(** Line 35: [cached_token and token_expiry and datetime.now() < token_expiry].
    The clock is read only when both globals are truthy; a datetime is always
    truthy.  The result is the expiry when the test holds. *)
Definition cache_fresh (env : Env) : M (option Z) :=
  let* tok := get_cached_token in
  let* exp := get_token_expiry in
  if truthy tok then
    match exp with
    | Some t =>
        let* now := datetime_now env in
        ret (if now <? t then Some t else None)
    | None => ret None
    end
  else ret None.

(** Lines 64-72: the details of a failed token request. *)
Definition token_error_details (response : Response) : result pyval :=
  match
    (let? error_json := json response in
     let? has_description := py_in "error_description" error_json in
     if has_description then py_getitem error_json "error_description"
     else
       let? has_error := py_in "error" error_json in
       if has_error then py_getitem error_json "error"
       else Ok (PStr (text response)))
  with
  | Ok details => Ok details
  | Raise e => if is_ValueError e then Ok (PStr (text response)) else Raise e
  end.

(** Lines 41-83: ask the token endpoint and store the answer. *)
Definition refresh_token (env : Env) : M FlaskResponse :=
  try_except
    (let* response := requests_post env (token_request env) in
     if status_code response =? 200 then
       let* data := lift (json response) in
       let* tok := lift (py_getitem data "access_token") in
       set_cached_token tok ;;
       let* expires_in := lift (py_getitem data "expires_in") in
       let* now := datetime_now env in
       let* delta := lift (timedelta_seconds expires_in) in
       let* expiry := lift (datetime_add now delta) in
       set_token_expiry (Some expiry) ;;
       let* tok' := get_cached_token in
       ret (jsonify (PDict [("access_token", tok');
                            ("expires_in", expires_in)]),
            200)
     else
       let* error_details := lift (token_error_details response) in
       ret (jsonify (PDict [("error",
                             PStr ("FatSecret token request failed: "
                                     ++ str_of_int (status_code response)));
                            ("details", error_details)]),
            400))
    (fun e =>
       ret (jsonify (PDict [("error", PStr "Exception during token fetch");
                            ("details", PStr (exn_str e))]),
            500)).

Definition get_fatsecret_token (env : Env) : M FlaskResponse :=
  let* fresh := cache_fresh env in
  match fresh with
  | Some expiry =>
      let* tok := get_cached_token in
      let* now := datetime_now env in
      ret (jsonify (PDict [("access_token", tok);
                           ("expires_in",
                            PInt (timedelta_seconds_field expiry now))]),
           200)
  | None => refresh_token env
  end.

(** ** The proxy handlers *)

Definition fatsecret_url : string := "https://platform.fatsecret.com/rest/server.api".

(** Lines 110, 201, 288 and 369:
    [not cached_token or not token_expiry or datetime.now() >= token_expiry]. *)
Definition cache_stale (env : Env) : M bool :=
  let* tok := get_cached_token in
  let* exp := get_token_expiry in
  if negb (truthy tok) then ret true
  else
    match exp with
    | None => ret true
    | Some t =>
        let* now := datetime_now env in
        ret (t <=? now)
    end.

(** Lines 110-120, repeated at 201-211 and 288-298: refresh a stale token.
    [Some r] means the handler returns [r] at once.  [get_fatsecret_token]
    always returns a tuple. *)
Definition ensure_token (env : Env) : M (option FlaskResponse) :=
  let* stale := cache_stale env in
  if stale then
    try_except
      (let* token_response := get_fatsecret_token env in
       if negb (snd token_response =? 200) then ret (Some token_response)
       else ret None)
      (fun e =>
         ret (Some (jsonify (PDict [("error", PStr "Failed to get token");
                                    ("details", PStr (exn_str e))]),
                    500)))
  else ret None.

(** Lines 369-381: the barcode handler reads the token response's body
    too.  A Flask response object is truthy and its [get_json()] is the
    body passed to [jsonify]. *)
Definition ensure_token_barcode (env : Env) : M (option FlaskResponse) :=
  let* stale := cache_stale env in
  if stale then
    try_except
      (let* token_response_tuple := get_fatsecret_token env in
       let token_data := fst token_response_tuple in
       let status := snd token_response_tuple in
       let* failed :=
         lift (if negb (status =? 200) then Ok true
               else if negb (truthy token_data) then Ok true
               else let? present := py_in "access_token" token_data in
                    Ok (negb present)) in
       if failed then
         let* details :=
           lift (if truthy token_data
                 then py_get token_data "details" (PStr "Unknown token error")
                 else Ok (PStr "Unknown token error")) in
         ret (Some (jsonify (PDict [("error",
                                     PStr "Failed to refresh token for barcode lookup");
                                    ("details", details)]),
                    status))
       else ret None)
      (fun e =>
         ret (Some (jsonify (PDict [("error", PStr "Exception refreshing token");
                                    ("details", PStr (exn_str e))]),
                    500)))
  else ret None.

(** The texts by which the four upstream calls differ. *)
Record Wording : Type := mkWording {
  non_200 : string;
  request_failed : string;
  parse_failed : string;
  unexpected : string
}.

(** The [except] clauses of an upstream call, in the order they are
    written.  The second one reads [response], which is unbound when
    [requests.post] itself raised. *)
Definition except_clauses (w : Wording) (response : option Response) (e : exn)
  : result FlaskResponse :=
  if is_RequestException e then
    Ok (jsonify (PDict [("error", PStr (request_failed w));
                        ("details", PStr (exn_str e))]),
        500)
  else if is_JSONDecodeError e then
    match response with
    | Some r =>
        Ok (jsonify (PDict [("error", PStr (parse_failed w));
                            ("details", PStr (exn_str e));
                            ("response", PStr (text r))]),
            500)
    | None =>
        Raise (mkExn UnboundLocalError
                 "cannot access local variable 'response' where it is not associated with a value")
    end
  else
    Ok (jsonify (PDict [("error", PStr (unexpected w));
                        ("details", PStr (exn_str e))]),
        500).

(** Lines 139-177, repeated at 227-265, 306-351 and 394-447: post the
    request, pass a non-200 status on, and map the parsed body of a 200
    with [on_200]. *)
Definition forward (env : Env) (req : Request) (w : Wording)
           (on_200 : pyval -> result FlaskResponse) : M FlaskResponse :=
  let* posted := attempt (requests_post env req) in
  match posted with
  | Raise e => lift (except_clauses w None e)
  | Ok response =>
      match
        (if negb (status_code response =? 200) then
           Ok (jsonify (PDict [("error",
                                PStr (non_200 w ++ str_of_int (status_code response)));
                               ("details", PStr (text response))]),
               status_code response)
         else
           let? response_data := json response in
           on_200 response_data)
      with
      | Ok r => ret r
      | Raise e => lift (except_clauses w (Some response) e)
      end
  end.

(** Lines 156-157: the parsed body goes back as it is. *)
Definition pass_through (response_data : pyval) : result FlaskResponse :=
  Ok (jsonify response_data, 200).

Definition bad_request (message : string) : FlaskResponse :=
  (jsonify (PDict [("error", PStr message)]), 400).

Definition search_wording : Wording :=
  mkWording "FatSecret API returned status "
            "Exception during FatSecret search request"
            "Failed to parse FatSecret response as JSON"
            "Unexpected exception during FatSecret search".

Definition details_wording : Wording :=
  mkWording "FatSecret API returned status "
            "Exception during FatSecret food details request"
            "Failed to parse FatSecret food details response as JSON"
            "Unexpected exception during FatSecret food details fetch".

Definition image_wording : Wording :=
  mkWording "FatSecret API returned status "
            "Exception during FatSecret image recognition request"
            "Failed to parse FatSecret image recognition response as JSON"
            "Unexpected exception during FatSecret image recognition".

Definition barcode_wording : Wording :=
  mkWording "FatSecret API (barcode) returned status "
            "Exception during FatSecret barcode lookup"
            "Failed to parse FatSecret barcode lookup response"
            "Unexpected exception during barcode lookup".

(** /fatsecret_search.  [request_json] is what evaluating [request.json]
    does at line 94: it returns the parsed body, or it raises, before any
    line of the view has a say (werkzeug's 415 when the request has no
    JSON content type, its 400 when the body does not parse, the empty
    body included; older versions of Flask return [None] in the first
    case). *)
Definition search_foods (env : Env) (request_json : result pyval)
  : M FlaskResponse :=
  let* data := lift request_json in
  if negb (truthy data) then ret (bad_request "No JSON data received")
  else
    let* query := lift (py_get data "query" (PStr "")) in
    if negb (truthy query) then ret (bad_request "No search query provided")
    else
      let* page_number := lift (py_get data "page_number" (PStr "0")) in
      let* max_results := lift (py_get data "max_results" (PStr "10")) in
      let* early := ensure_token env in
      match early with
      | Some token_response => ret token_response
      | None =>
          let* tok := get_cached_token in
          forward env
            (mkRequest fatsecret_url (Bearer tok)
               (FormData [("method", PStr "foods.search");
                          ("search_expression", query);
                          ("format", PStr "json");
                          ("page_number", page_number);
                          ("max_results", max_results)]))
            search_wording
            pass_through
      end.

(** /fatsecret_food_details; [request_json] as in [search_foods], for
    line 188. *)
Definition get_food_details (env : Env) (request_json : result pyval)
  : M FlaskResponse :=
  let* data := lift request_json in
  if negb (truthy data) then ret (bad_request "No JSON data received")
  else
    let* food_id := lift (py_get data "food_id" (PStr "")) in
    if negb (truthy food_id) then ret (bad_request "No food ID provided")
    else
      let* early := ensure_token env in
      match early with
      | Some token_response => ret token_response
      | None =>
          let* tok := get_cached_token in
          forward env
            (mkRequest fatsecret_url (Bearer tok)
               (FormData [("method", PStr "food.get.v2");
                          ("food_id", food_id);
                          ("format", PStr "json")]))
            details_wording
            pass_through
      end.

Fixpoint files_get (files : list (string * FileStorage)) (k : string)
  : option FileStorage :=
  match files with
  | [] => None
  | (k', f) :: rest => if (k' =? k)%string then Some f else files_get rest k
  end.

(** /fatsecret_image_recognition; [files] is [request.files]. *)
Definition recognize_food_from_image (env : Env)
           (files : list (string * FileStorage)) : M FlaskResponse :=
  match files_get files "image" with
  | None => ret (bad_request "No image file provided")
  | Some image_file =>
      if (filename image_file =? "")%string
      then ret (bad_request "Empty image file")
      else
        let* early := ensure_token env in
        match early with
        | Some token_response => ret token_response
        | None =>
            let* tok := get_cached_token in
            forward env
              (mkRequest fatsecret_url (Bearer tok)
                 (Multipart [("method", "food.recognize"); ("format", "json")]
                            image_file))
              image_wording
              pass_through
        end
  end.

Definition not_found_for_barcode : string := "Food not found for this barcode".
Definition placeholder_name : string := "Food Item (Details will be fetched)".

(** Lines 413 and 422: a truthy dict with a [value] key. *)
Definition has_value (food_id : pyval) : result bool :=
  if truthy food_id && is_dict food_id then py_in "value" food_id
  else Ok false.

(** Lines 413-440: the reply to a parsed 200 body of
    food.find_id_for_barcode. *)
Definition barcode_reply (response_data : pyval) : result FlaskResponse :=
  let? found :=
    (let? present := py_in "food_id" response_data in
     if present then
       let? food_id := py_getitem response_data "food_id" in
       has_value food_id
     else Ok false) in
  if found then
    let? with_error := py_in "error" response_data in
    if with_error then
      let? error := py_getitem response_data "error" in
      let? message := py_getitem error "message" in
      Ok (jsonify (PDict [("error", PStr not_found_for_barcode);
                          ("details", message)]),
          404)
    else
      let? food_id_data := py_get response_data "food_id" PNone in
      let? usable := has_value food_id_data in
      if usable then
        let? food_id_value := py_getitem food_id_data "value" in
        Ok (jsonify (PDict [("food_id", food_id_value);
                            ("food_name", PStr placeholder_name)]),
            200)
      else
        Ok (jsonify (PDict [("error",
                             PStr "Barcode found, but food_id format unexpected");
                            ("details", response_data)]),
            500)
  else
    let? with_error := py_in "error" response_data in
    if with_error then
      let? error := py_getitem response_data "error" in
      let? error_code := py_get error "code" (PStr "Unknown") in
      let? error_message :=
        py_get error "message"
               (PStr "Food not found for this barcode or API error.") in
      let? missing :=
        (if py_eq_int error_code 106 then Ok true
         else
           let? lowered := py_lower error_message in
           py_call_contains lowered "no item found") in
      if missing then
        Ok (jsonify (PDict [("error", PStr not_found_for_barcode)]), 404)
      else
        Ok (jsonify (PDict [("error", error_message); ("details", error)]), 400)
    else
      Ok (jsonify (PDict [("error",
                           PStr "Food not found or unexpected API response.")]),
          404).

(** /fatsecret_barcode_lookup; [request_json] as in [search_foods], for
    line 360. *)
Definition lookup_barcode (env : Env) (request_json : result pyval)
  : M FlaskResponse :=
  let* data := lift request_json in
  if negb (truthy data) then ret (bad_request "No JSON data received")
  else
    let* barcode := lift (py_get data "barcode" (PStr "")) in
    if negb (truthy barcode) then ret (bad_request "No barcode provided")
    else
      let* early := ensure_token_barcode env in
      match early with
      | Some token_response => ret token_response
      | None =>
          let* tok := get_cached_token in
          forward env
            (mkRequest fatsecret_url (Bearer tok)
               (FormData [("method", PStr "food.find_id_for_barcode");
                          ("barcode", barcode);
                          ("format", PStr "json")]))
            barcode_wording
            barcode_reply
      end.

(** ** The application *)

(** The five routes of the Flask app, each with what its view reads from
    the request: the outcome of [request.json], or [request.files]. *)
Inductive Route : Type :=
| GetToken
| PostSearch (request_json : result pyval)
| PostFoodDetails (request_json : result pyval)
| PostImageRecognition (files : list (string * FileStorage))
| PostBarcodeLookup (request_json : result pyval).

Definition handle (env : Env) (r : Route) : M FlaskResponse :=
  match r with
  | GetToken => get_fatsecret_token env
  | PostSearch request_json => search_foods env request_json
  | PostFoodDetails request_json => get_food_details env request_json
  | PostImageRecognition files => recognize_food_from_image env files
  | PostBarcodeLookup request_json => lookup_barcode env request_json
  end.

(** The wording and the mapping of a 200 body of each proxy view. *)
Definition wording_of (r : Route) : Wording :=
  match r with
  | PostFoodDetails _ => details_wording
  | PostImageRecognition _ => image_wording
  | PostBarcodeLookup _ => barcode_wording
  | _ => search_wording
  end.

Definition on_200_of (r : Route) : pyval -> result FlaskResponse :=
  match r with
  | PostBarcodeLookup _ => barcode_reply
  | _ => pass_through
  end.

Definition is_proxy (r : Route) : bool :=
  match r with GetToken => false | _ => true end.

(** ** Observations on a run *)

(** The requests posted between two states of one run. *)
Definition new_requests (before after : State) : list Request :=
  skipn (List.length (sent before)) (sent after).

Definition is_token_request (req : Request) : bool :=
  (url req =? token_url)%string.

Definition is_api_request (req : Request) : bool :=
  (url req =? fatsecret_url)%string.

(** The outcome of the upstream food-API call of a run: the answer to its
    last request, when the run posted one to the food API. *)
Definition upstream_reply (env : Env) (before after : State)
  : option (result Response) :=
  match rev (new_requests before after) with
  | req :: _ =>
      if is_api_request req
      then Some (network env (List.length (sent after) - 1)%nat)
      else None
  | [] => None
  end.

(** The answer of the token endpoint to a refresh started in [s]. *)
Definition token_reply (env : Env) (s : State) : result Response :=
  network env (List.length (sent s)).

(** The cache as the handlers test it at their [n]-th clock reading. *)
Definition stale_at (env : Env) (s : State) : Prop :=
  truthy (cached_token s) = false
  \/ token_expiry s = None
  \/ exists t, token_expiry s = Some t /\ t <= clock env (clock_reads s).

Definition clock_monotone (env : Env) : Prop :=
  forall i j : nat, (i <= j)%nat -> clock env i <= clock env j.

(** The request gets past the validation at the head of its view. *)
Definition field_given (data : pyval) (k : string) : bool :=
  truthy data
  && match data with
     | PDict d => match dict_get d k with Some v => truthy v | None => false end
     | _ => false
     end.

Definition accepted (r : Route) : bool :=
  match r with
  | GetToken => true
  | PostSearch (Ok data) => field_given data "query"
  | PostFoodDetails (Ok data) => field_given data "food_id"
  | PostBarcodeLookup (Ok data) => field_given data "barcode"
  | PostSearch (Raise _) | PostFoodDetails (Raise _)
  | PostBarcodeLookup (Raise _) => false
  | PostImageRecognition files =>
      match files_get files "image" with
      | Some f => negb (filename f =? "")%string
      | None => false
      end
  end.

(** The request is turned down by the validation: the body is falsy, or it
    is a dict whose required field is absent or falsy; for the upload, no
    [image] part or one with an empty file name. *)
Definition field_missing (data : pyval) (k : string) : bool :=
  negb (truthy data)
  || match data with
     | PDict d => match dict_get d k with Some v => negb (truthy v) | None => true end
     | _ => false
     end.

Definition rejected (r : Route) : bool :=
  match r with
  | GetToken => false
  | PostSearch (Ok data) => field_missing data "query"
  | PostFoodDetails (Ok data) => field_missing data "food_id"
  | PostBarcodeLookup (Ok data) => field_missing data "barcode"
  | PostSearch (Raise _) | PostFoodDetails (Raise _)
  | PostBarcodeLookup (Raise _) => false
  | PostImageRecognition files =>
      match files_get files "image" with
      | Some f => (filename f =? "")%string
      | None => true
      end
  end.

(** * The vocabulary of the properties *)

Definition same_cache (s s' : State) : Prop :=
  cached_token s' = cached_token s /\ token_expiry s' = token_expiry s.

(** The token endpoint answered with status 200. *)
Definition token_granted (r : result Response) : bool :=
  match r with
  | Ok response => status_code response =? 200
  | Raise _ => false
  end.

(** A lifetime of [n] seconds is a timedelta, and added to the [k]-th
    clock reading it is a datetime. *)
Definition lifetime_fits_at (env : Env) (n : Z) (k : nat) : Prop :=
  timedelta_min <= n * usec_per_second <= timedelta_max
  /\ 0 <= clock env k + n * usec_per_second <= datetime_max.

(** The same, for every clock reading taken between two states of a run. *)
Definition lifetime_fits (env : Env) (s s' : State) (n : Z) : Prop :=
  forall k : nat,
    (clock_reads s <= k < clock_reads s')%nat -> lifetime_fits_at env n k.

(** What a handler's token step leaves behind.  It posts nothing and keeps
    the cache, or it posts the one token request; on a stale cache it is
    the latter, and a well-formed grant is then in the cache. *)
Definition token_step (env : Env) (s : State) (o : option FlaskResponse)
           (s1 : State) : Prop :=
  (clock_reads s <= clock_reads s1)%nat
  /\ ((sent s1 = sent s /\ same_cache s s1 /\ o = None)
      \/ sent s1 = (sent s ++ [token_request env])%list)
  /\ (stale_at env s -> clock_monotone env ->
      sent s1 = (sent s ++ [token_request env])%list
      /\ forall response d tok n,
          token_reply env s = Ok response ->
          status_code response = 200 ->
          json response = Ok (PDict d) ->
          dict_get d "access_token" = Some tok ->
          dict_get d "expires_in" = Some (PInt n) ->
          lifetime_fits env s s1 n ->
          o = None
          /\ cached_token s1 = tok
          /\ exists k : nat,
              (clock_reads s <= k < clock_reads s1)%nat
              /\ token_expiry s1 = Some (clock env k + n * usec_per_second)).

(** A reading of the token view's answer that lets a 200 through. *)
Definition passes_grant (resp : FlaskResponse) (o : option FlaskResponse)
  : Prop :=
  forall body tok rest,
    resp = (body, 200) -> body = PDict (("access_token", tok) :: rest) ->
    o = None.

(** The reply of [forward] as a function of what [requests.post] gave. *)
Definition reply_to (w : Wording) (on_200 : pyval -> result FlaskResponse)
           (posted : result Response) : result FlaskResponse :=
  match posted with
  | Raise e => except_clauses w None e
  | Ok response =>
      if negb (status_code response =? 200) then
        Ok (PDict [("error",
                    PStr (non_200 w ++ str_of_int (status_code response)));
                   ("details", PStr (text response))],
            status_code response)
      else
        match rbind (json response) on_200 with
        | Ok r => Ok r
        | Raise e => except_clauses w (Some response) e
        end
  end.

(** A run that got past validation: a token step, then either the early
    answer of that step or the upstream call. *)
Definition proxied (env : Env) (w : Wording)
           (on_200 : pyval -> result FlaskResponse)
           (s : State) (r : result FlaskResponse) (s' : State) : Prop :=
  exists o s1,
    token_step env s o s1
    /\ match o with
       | Some token_response => r = Ok token_response /\ s' = s1
       | None =>
           exists req,
             is_api_request req = true
             /\ r = reply_to w on_200 (network env (List.length (sent s1)))
             /\ s' = mkState (cached_token s1) (token_expiry s1)
                             (clock_reads s1) (sent s1 ++ [req])%list
       end.

(** What [request.json] does for the request of a view that reads JSON. *)
Definition request_json_of (route : Route) : option (result pyval) :=
  match route with
  | PostSearch request_json | PostFoodDetails request_json
  | PostBarcodeLookup request_json => Some request_json
  | _ => None
  end.

(** The three views that pass the upstream body through. *)
Definition passes_through (route : Route) : bool :=
  match route with
  | PostSearch _ | PostFoodDetails _ | PostImageRecognition _ => true
  | _ => false
  end.

(** The body of a barcode reply holds [food_id] as a dict with a [value]
    key. *)
Definition food_id_with_value (d : list (string * pyval)) : bool :=
  match dict_get d "food_id" with
  | Some (PDict food_id) => has_key food_id "value"
  | _ => false
  end.

(** The text of the [error] field of an answer, and whether it mentions a
    word, in any letter case. *)
Definition error_text (r : result FlaskResponse) : option string :=
  match r with
  | Ok (PDict d, _) =>
      match dict_get d "error" with
      | Some (PStr message) => Some message
      | _ => None
      end
  | _ => None
  end.

Definition mentions (word : string) (r : result FlaskResponse) : bool :=
  match error_text r with
  | Some message => contains word (lower message)
  | None => false
  end.

Definition status_of (r : result FlaskResponse) : option Z :=
  match r with
  | Ok (_, status) => Some status
  | Raise _ => None
  end.

(** The class of the exception that left a view, when one did. *)
Definition exn_kind_of (r : result FlaskResponse) : option exn_class :=
  match r with
  | Ok _ => None
  | Raise e => Some (exn_kind e)
  end.



(** The details of a refused token request, when the body is a JSON
    object or is not JSON: [error_description], else [error], else the
    raw text. *)
Definition refusal_details (response : Response) : option pyval :=
  match json response with
  | Ok (PDict d) =>
      Some match dict_get d "error_description" with
           | Some description => description
           | None =>
               match dict_get d "error" with
               | Some error => error
               | None => PStr (text response)
               end
           end
  | Ok _ => None
  | Raise e => if is_ValueError e then Some (PStr (text response)) else None
  end.

(** ** The vocabulary of the further properties *)

(** The cache as the tests of lines 35 and 110 find it valid: a truthy
    token whose expiry lies after the next clock reading. *)
Definition fresh_at (env : Env) (s : State) : Prop :=
  exists t,
    truthy (cached_token s) = true
    /\ token_expiry s = Some t
    /\ clock env (clock_reads s) < t.


(** The state after one more request. *)
Definition posting (s : State) (req : Request) : State :=
  mkState (cached_token s) (token_expiry s) (clock_reads s)
          (sent s ++ [req])%list.

(** [d.get(k, default)] on the bindings of a dict. *)
Definition dict_get_default (d : list (string * pyval)) (k : string)
           (default : pyval) : pyval :=
  match dict_get d k with
  | Some v => v
  | None => default
  end.

(** The [data=] or [files=] argument each proxy view builds from its
    request (lines 131-137, 221-225, 310-314 and 388-392). *)
Definition payload_of (route : Route) : option Payload :=
  match route with
  | PostSearch (Ok (PDict d)) =>
      Some (FormData [("method", PStr "foods.search");
                      ("search_expression", dict_get_default d "query" (PStr ""));
                      ("format", PStr "json");
                      ("page_number", dict_get_default d "page_number" (PStr "0"));
                      ("max_results", dict_get_default d "max_results" (PStr "10"))])
  | PostFoodDetails (Ok (PDict d)) =>
      Some (FormData [("method", PStr "food.get.v2");
                      ("food_id", dict_get_default d "food_id" (PStr ""));
                      ("format", PStr "json")])
  | PostBarcodeLookup (Ok (PDict d)) =>
      Some (FormData [("method", PStr "food.find_id_for_barcode");
                      ("barcode", dict_get_default d "barcode" (PStr ""));
                      ("format", PStr "json")])
  | PostImageRecognition files =>
      match files_get files "image" with
      | Some image_file =>
          Some (Multipart [("method", "food.recognize"); ("format", "json")]
                          image_file)
      | None => None
      end
  | _ => None
  end.

(** The token step of each proxy view. *)
Definition ensure_of (route : Route) (env : Env) : M (option FlaskResponse) :=
  match route with
  | PostBarcodeLookup _ => ensure_token_barcode env
  | _ => ensure_token env
  end.

(** What follows validation in the four proxy views: the token step, then
    the upstream call with the token the cache holds by then. *)
Definition proxy (env : Env) (ensure : M (option FlaskResponse))
           (body : Payload) (w : Wording)
           (on_200 : pyval -> result FlaskResponse) : M FlaskResponse :=
  let* early := ensure in
  match early with
  | Some token_response => ret token_response
  | None =>
      let* tok := get_cached_token in
      forward env (mkRequest fatsecret_url (Bearer tok) body) w on_200
  end.

(** The request a proxy view posts to the food API from state [s]. *)
Definition api_request (s : State) (body : Payload) : Request :=
  mkRequest fatsecret_url (Bearer (cached_token s)) body.



(** A body that is a truthy value other than a dict: a non-empty list or
    str, a number other than zero, [True]. *)
Definition truthy_non_object (data : pyval) : bool :=
  truthy data && negb (is_dict data).

(** The body a view that reads JSON gets, when [request.json] returns. *)
Definition json_body (route : Route) : option pyval :=
  match route with
  | PostSearch (Ok data) | PostFoodDetails (Ok data)
  | PostBarcodeLookup (Ok data) => Some data
  | _ => None
  end.



(** The lifetime a grant states, as [timedelta(seconds=...)] takes it. *)
Definition stated_lifetime (d : list (string * pyval)) : result Z :=
  let? expires_in := py_getitem (PDict d) "expires_in" in
  timedelta_seconds expires_in.

(** The token a grant states. *)
Definition stated_token (response : Response) : result pyval :=
  let? data := json response in
  py_getitem data "access_token".

(** The shape of a run: what it posted, in order, and what became of the
    cache when no token request was among it. *)
Definition run_shape (env : Env) (route : Route) (s s' : State) : Prop :=
  exists pre post,
    new_requests s s' = (pre ++ post)%list
    /\ ((pre = [] /\ same_cache s s') \/ pre = [token_request env])
    /\ (post = []
        \/ exists body,
            payload_of route = Some body
            /\ post = [api_request s' body]).

(** * Scenarios *)

(** The first instant of 2025, a clock that stands still there, and one
    that advances by a millisecond from one reading to the next. *)
Definition new_year_2025 : Z := 739251 * usec_per_day.
Definition steady_clock (n : nat) : Z := new_year_2025.
Definition ticking_clock (n : nat) : Z := new_year_2025 + 1000 * Z.of_nat n.

(** A request that fails in transport. *)
Definition unreachable : result Response :=
  Raise (mkExn RequestException "no route to host").

(** A warm cache: a token that expires an hour after the steady clock. *)
Definition warm : State :=
  mkState (PStr "abc") (Some (new_year_2025 + 3600 * usec_per_second)) 0 [].

(** A cold cache: nothing fetched yet. *)
Definition cold : State := mkState PNone None 0 [].

(** The double quote, and a string between two of them. *)
Definition dq : string := String (ascii_of_nat 34) EmptyString.
Definition quoted (s : string) : string := dq ++ s ++ dq.

(** An upstream that answers every request with [response]. *)
Definition always (response : Response) : Env :=
  mkEnv "id" "secret" steady_clock (fun _ => Ok response).

(** A grant of the token "abc" for a day. *)
Definition grant : Response :=
  mkResponse 200
    ("{" ++ quoted "access_token" ++ ": " ++ quoted "abc" ++ ", "
         ++ quoted "expires_in" ++ ": 86400}")
    (Ok (PDict [("access_token", PStr "abc"); ("expires_in", PInt 86400)])).

(** An upstream whose first answer is the grant and whose later answers
    are [response], under the ticking clock. *)
Definition granting (response : Response) : Env :=
  mkEnv "id" "secret" ticking_clock
        (fun n => match n with O => Ok grant | S _ => Ok response end).

(** An upstream that cannot be reached. *)
Definition unreachable_env : Env :=
  mkEnv "id" "secret" steady_clock (fun _ => unreachable).

(** A refusal of the client's credentials, in plain text. *)
Definition refusal : Response :=
  mkResponse 401 "invalid_client"
             (Raise (mkExn JSONDecodeError "Expecting value")).

(** A 200 whose body is the empty object. *)
Definition empty_object : Response := mkResponse 200 "{}" (Ok (PDict [])).

(** A search for apples, and a lookup of a barcode. *)
Definition apple_search : Route :=
  PostSearch (Ok (PDict [("query", PStr "apple")])).
Definition barcode_body : pyval := PDict [("barcode", PStr "0123456789012")].
Definition barcode_data : result pyval := Ok barcode_body.

(** * Properties *)

(** ** Tactics for running the monad *)

(** Unfold the operations of the monad and compute, in a hypothesis and
    in the goal. *)
Ltac run_in H :=
  unfold bind, ret, lift, try_except, attempt, get_cached_token,
    get_token_expiry, set_cached_token, set_token_expiry, datetime_now,
    requests_post, rbind in H; simpl in H.

Ltac run :=
  unfold bind, ret, lift, try_except, attempt, get_cached_token,
    get_token_expiry, set_cached_token, set_token_expiry, datetime_now,
    requests_post, rbind; simpl.

(** Split on the scrutinee of the innermost-first match of the goal. *)
Ltac split_match :=
  match goal with
  | |- context [match ?x with _ => _ end] =>
      lazymatch x with
      | context [match _ with _ => _ end] => fail
      | _ => destruct x eqn:?
      end
  | |- context [if ?x then _ else _] =>
      lazymatch x with
      | context [if _ then _ else _] => fail
      | _ => destruct x eqn:?
      end
  end.

(** Close the simple conjuncts left after a run. *)
Ltac finish :=
  repeat split; try discriminate; intros; unfold jsonify in *;
  try lia; try congruence; eauto.

(** ** The scenarios are well-formed *)



(** ** The token endpoint *)

Lemma refresh_token_run (env : Env) (s : State) :
  exists resp s',
    refresh_token env s = (Ok resp, s')
    /\ sent s' = (sent s ++ [token_request env])%list
    /\ (clock_reads s <= clock_reads s')%nat
    /\ (snd resp = 200 ->
        exists tok rest, fst resp = PDict (("access_token", tok) :: rest))
    /\ (token_granted (token_reply env s) = false ->
        same_cache s s' /\ snd resp <> 200).
Proof.
  unfold refresh_token, token_reply, token_granted, same_cache.
  run.
  destruct (network env (List.length (sent s))) as [response | e]; simpl.
  - destruct (status_code response =? 200) eqn:Hstatus; simpl.
    + repeat (split_match; simpl);
        (do 2 eexists; split; [reflexivity | simpl ]; finish).
    + repeat (split_match; simpl);
        (do 2 eexists; split; [reflexivity | simpl ]; finish).
  - do 2 eexists; split; [reflexivity | simpl]; finish.
Qed.

Lemma timedelta_seconds_fits (env : Env) (n : Z) (k : nat) :
  lifetime_fits_at env n k ->
  timedelta_seconds (PInt n) = Ok (n * usec_per_second).
Proof.
  intros [Hdelta _]. unfold timedelta_seconds, timedelta_of_usec.
  destruct (timedelta_min <=? n * usec_per_second) eqn:Hlo;
    destruct (n * usec_per_second <=? timedelta_max) eqn:Hhi;
    simpl; try reflexivity; lia.
Qed.

Lemma datetime_add_fits (env : Env) (n : Z) (k : nat) :
  lifetime_fits_at env n k ->
  datetime_add (clock env k) (n * usec_per_second)
  = Ok (clock env k + n * usec_per_second).
Proof.
  intros [_ Hsum]. unfold datetime_add.
  destruct (0 <=? clock env k + n * usec_per_second) eqn:Hlo;
    destruct (clock env k + n * usec_per_second <=? datetime_max) eqn:Hhi;
    simpl; try reflexivity; lia.
Qed.

(** A grant that parses makes the refresh read the clock once, whether or
    not the expiry can then be computed. *)
Lemma refresh_token_reads (env : Env) (s : State) (response : Response)
      (d : list (string * pyval)) (tok expires_in : pyval) :
  token_reply env s = Ok response ->
  status_code response = 200 ->
  json response = Ok (PDict d) ->
  dict_get d "access_token" = Some tok ->
  dict_get d "expires_in" = Some expires_in ->
  clock_reads (snd (refresh_token env s)) = S (clock_reads s).
Proof.
  intros Hreply Hstatus Hjson Htok Hexp.
  unfold refresh_token, token_reply in *. run.
  rewrite Hreply. simpl. rewrite Hstatus. simpl.
  rewrite Hjson. simpl. rewrite Htok. simpl. rewrite Hexp. simpl.
  destruct (timedelta_seconds expires_in) as [delta | e]; simpl;
    [| reflexivity].
  destruct (datetime_add (clock env (clock_reads s)) delta); reflexivity.
Qed.

(** A well-formed grant is stored: the token as parsed, the expiry at the
    clock reading taken then plus the lifetime. *)
Lemma refresh_token_stores (env : Env) (s : State) (response : Response)
      (d : list (string * pyval)) (tok : pyval) (n : Z) :
  token_reply env s = Ok response ->
  status_code response = 200 ->
  json response = Ok (PDict d) ->
  dict_get d "access_token" = Some tok ->
  dict_get d "expires_in" = Some (PInt n) ->
  lifetime_fits_at env n (clock_reads s) ->
  refresh_token env s
  = (Ok (PDict [("access_token", tok); ("expires_in", PInt n)], 200),
     mkState tok (Some (clock env (clock_reads s) + n * usec_per_second))
             (S (clock_reads s)) (sent s ++ [token_request env])%list).
Proof.
  intros Hreply Hstatus Hjson Htok Hexp Hfits.
  unfold refresh_token, token_reply in *. run.
  rewrite Hreply. simpl. rewrite Hstatus. simpl.
  rewrite Hjson. simpl. rewrite Htok. simpl. rewrite Hexp. simpl.
  change (timedelta_of_usec (n * usec_per_second))
    with (timedelta_seconds (PInt n)).
  rewrite (timedelta_seconds_fits env n _ Hfits). simpl.
  rewrite (datetime_add_fits env n _ Hfits). reflexivity.
Qed.

(** The test of line 35 reads the clock at most once and changes nothing
    else; it succeeds exactly on a truthy token whose expiry lies after the
    reading. *)
Lemma cache_fresh_run (env : Env) (s : State) :
  exists o s1,
    cache_fresh env s = (Ok o, s1)
    /\ same_cache s s1
    /\ sent s1 = sent s
    /\ (clock_reads s <= clock_reads s1)%nat
    /\ (forall t, o = Some t ->
        truthy (cached_token s) = true
        /\ token_expiry s = Some t
        /\ clock env (clock_reads s) < t
        /\ clock_reads s1 = S (clock_reads s))
    /\ (stale_at env s -> o = None).
Proof.
  unfold cache_fresh, same_cache, stale_at. run.
  destruct (truthy (cached_token s)) eqn:Htruthy; simpl.
  - destruct (token_expiry s) as [t |] eqn:Hexpiry; simpl.
    + destruct (clock env (clock_reads s) <? t) eqn:Hbefore;
        do 2 eexists; (split; [reflexivity | simpl]); finish.
      * inversion H; subst; lia.
      * destruct H as [H | [H | [t' [H1 H2]]]]; try discriminate.
        inversion H1; subst. lia.
    + do 2 eexists; (split; [reflexivity | simpl]); finish.
  - do 2 eexists; (split; [reflexivity | simpl]); finish.
Qed.

(** The view either serves the cache, posting nothing, or runs a refresh
    after its test; a stale cache leaves only the second way. *)
Lemma get_fatsecret_token_run (env : Env) (s : State) :
  exists resp s',
    get_fatsecret_token env s = (Ok resp, s')
    /\ (clock_reads s <= clock_reads s')%nat
    /\ (snd resp = 200 ->
        exists tok rest, fst resp = PDict (("access_token", tok) :: rest))
    /\ ((sent s' = sent s /\ same_cache s s' /\ snd resp = 200)
        \/ exists s1,
            same_cache s s1 /\ sent s1 = sent s
            /\ (clock_reads s <= clock_reads s1)%nat
            /\ refresh_token env s1 = (Ok resp, s'))
    /\ (stale_at env s ->
        exists s1,
          same_cache s s1 /\ sent s1 = sent s
          /\ (clock_reads s <= clock_reads s1)%nat
          /\ refresh_token env s1 = (Ok resp, s')).
Proof.
  destruct (cache_fresh_run env s)
    as (o & s1 & Hfresh & Hcache & Hsent & Hreads & Hsome & Hstale).
  unfold get_fatsecret_token, bind. rewrite Hfresh.
  destruct o as [t |].
  - run. do 2 eexists. split; [reflexivity | simpl].
    destruct Hcache as [Htok Hexp].
    split; [lia | split; [intros _; unfold jsonify; eauto | split]].
    + left. unfold same_cache. simpl. auto.
    + intros Hs. specialize (Hstale Hs). discriminate.
  - destruct (refresh_token_run env s1)
      as (resp & s' & Hrun & Hsent' & Hreads' & Hbody & _).
    exists resp, s'. split; [exact Hrun |].
    split; [lia | split; [exact Hbody | split]].
    + right. exists s1. auto.
    + intros _. exists s1. auto.
Qed.

Lemma same_cache_trans (a b c : State) :
  same_cache a b -> same_cache b c -> same_cache a c.
Proof. unfold same_cache. intros [? ?] [? ?]. split; congruence. Qed.

Lemma token_reply_same_history (env : Env) (s s1 : State) :
  sent s1 = sent s -> token_reply env s1 = token_reply env s.
Proof. unfold token_reply. intros ->. reflexivity. Qed.

Lemma failed_fetch_same_cache (env : Env) (s s' : State)
      (r : result FlaskResponse) :
  get_fatsecret_token env s = (r, s') ->
  token_granted (token_reply env s) = false ->
  same_cache s s'.
Proof.
  intros Hrun Hfailed.
  destruct (get_fatsecret_token_run env s)
    as (resp & s2 & Hrun' & _ & _ & Hways & _).
  rewrite Hrun in Hrun'. inversion Hrun'; subst s2 r; clear Hrun'.
  destruct Hways as [(_ & Hsame & _) | (s1 & Hsame & Hsent & _ & Hrefresh)].
  - exact Hsame.
  - destruct (refresh_token_run env s1)
      as (resp' & s2 & Hrun' & _ & _ & _ & Hkeep).
    rewrite Hrefresh in Hrun'. inversion Hrun'; subst.
    rewrite (token_reply_same_history env s s1 Hsent) in Hkeep.
    apply (same_cache_trans s s1 s2 Hsame). apply Hkeep. exact Hfailed.
Qed.

(** C9.  When the token endpoint answers with a status other than 200, or
    the request to it raises, [get_fatsecret_token] leaves [cached_token]
    and [token_expiry] as they were; so a run that changed either of them
    got a 200 from the token endpoint. *)
Theorem failed_token_fetch_keeps_cache (env : Env) (s s' : State)
        (r : result FlaskResponse) :
  get_fatsecret_token env s = (r, s') ->
  (((exists e, token_reply env s = Raise e)
    \/ (exists response,
          token_reply env s = Ok response /\ status_code response <> 200)) ->
   cached_token s' = cached_token s /\ token_expiry s' = token_expiry s)
  /\ (~ (cached_token s' = cached_token s /\ token_expiry s' = token_expiry s) ->
      exists response,
        token_reply env s = Ok response /\ status_code response = 200).
Proof.
  intros Hrun. split.
  - intros Hfailed. apply (failed_fetch_same_cache env s s' r Hrun).
    unfold token_granted.
    destruct Hfailed as [[e ->] | (response & -> & Hstatus)]; [reflexivity |].
    apply Z.eqb_neq. exact Hstatus.
  - intros Hchanged.
    destruct (token_reply env s) as [response | e] eqn:Hreply.
    + destruct (Z.eq_dec (status_code response) 200) as [Heq | Hneq].
      * exists response. auto.
      * exfalso. apply Hchanged.
        apply (failed_fetch_same_cache env s s' r Hrun).
        rewrite Hreply. simpl. apply Z.eqb_neq. exact Hneq.
    + exfalso. apply Hchanged.
      apply (failed_fetch_same_cache env s s' r Hrun).
      rewrite Hreply. reflexivity.
Qed.

(** A refused refresh of an expired token: the old token and expiry stay. *)
Lemma failed_token_fetch_keeps_cache_witness :
  let refusal :=
    mkResponse 401 "invalid_client"
               (Raise (mkExn JSONDecodeError "Expecting value")) in
  let stale :=
    mkState (PStr "old") (Some (new_year_2025 - usec_per_second)) 0 [] in
  let s' := snd (get_fatsecret_token (always refusal) stale) in
  cached_token s' = PStr "old"
  /\ token_expiry s' = Some (new_year_2025 - usec_per_second).
Proof.
  intros refusal stale s'.
  apply (proj1 (failed_token_fetch_keeps_cache
                  (always refusal) stale s'
                  (fst (get_fatsecret_token (always refusal) stale))
                  (surjective_pairing _))).
  right. exists refusal. split; [reflexivity | discriminate].
Defined.

(** ** The token step of the proxy handlers *)

(** The test of line 110: like that of line 35, at most one clock reading
    and no other effect. *)
Lemma cache_stale_run (env : Env) (s : State) :
  exists b s0,
    cache_stale env s = (Ok b, s0)
    /\ same_cache s s0
    /\ sent s0 = sent s
    /\ (clock_reads s <= clock_reads s0)%nat
    /\ (stale_at env s -> b = true)
    /\ (stale_at env s -> clock_monotone env -> stale_at env s0).
Proof.
  unfold cache_stale, same_cache, stale_at, clock_monotone. run.
  destruct (truthy (cached_token s)) eqn:Htruthy; simpl.
  - destruct (token_expiry s) as [t |] eqn:Hexpiry; simpl.
    + do 2 eexists; (split; [reflexivity | simpl]); finish.
      * destruct H as [H | [H | (t' & H1 & H2)]]; try discriminate.
        inversion H1; subst. apply Z.leb_le. exact H2.
      * destruct H as [H | [H | (t' & H1 & H2)]]; try discriminate.
        right; right. exists t'. split; [congruence |].
        specialize (H0 (clock_reads s) (S (clock_reads s))). lia.
    + do 2 eexists; (split; [reflexivity | simpl]); finish.
  - do 2 eexists; (split; [reflexivity | simpl]); finish.
Qed.

(** The token step, for any such reading of the token view's answer. *)
Lemma token_step_of_view (env : Env) (s : State) (b : bool) (s0 : State) :
  cache_stale env s = (Ok b, s0) ->
  if b then
    exists resp s',
      get_fatsecret_token env s0 = (Ok resp, s')
      /\ forall o, passes_grant resp o -> token_step env s o s'
  else token_step env s None s0.
Proof.
  intros Hstale.
  destruct (cache_stale_run env s)
    as (b' & s0' & Hrun & Hcache & Hsent & Hreads & Htrue & Hstill).
  rewrite Hstale in Hrun. inversion Hrun; subst b' s0'; clear Hrun.
  destruct b.
  - destruct (get_fatsecret_token_run env s0)
      as (resp & s' & Hview & Hreads' & Hbody & Hways & Hforced).
    exists resp, s'. split; [exact Hview |].
    intros o Hpass. unfold token_step. split; [lia | split].
    + destruct Hways as [(Hsame & Hkept & Hok) | (s1 & Hc1 & Hs1 & _ & Hrefresh)].
      * left. split; [congruence | split].
        -- exact (same_cache_trans _ _ _ Hcache Hkept).
        -- destruct resp as [body status]. simpl in *. subst status.
           destruct (Hbody eq_refl) as (tok & rest & Hshape).
           exact (Hpass body tok rest eq_refl Hshape).
      * right.
        destruct (refresh_token_run env s1) as (r2 & s2 & Hr2 & Hsent2 & _).
        rewrite Hrefresh in Hr2. inversion Hr2; subst. congruence.
    + intros Hs Hmono.
      destruct (Hforced (Hstill Hs Hmono)) as (s1 & Hc1 & Hs1 & Hr1 & Hrefresh).
      destruct (refresh_token_run env s1) as (r2 & s2 & Hr2 & Hsent2 & _).
      rewrite Hrefresh in Hr2. inversion Hr2; subst r2 s2; clear Hr2.
      split; [congruence |].
      intros response d tok n Hreply Hstatus Hjson Htok Hexp Hfits.
      assert (Hreply1 : token_reply env s1 = Ok response).
      { rewrite <- Hreply. unfold token_reply. congruence. }
      pose proof (refresh_token_reads env s1 response d tok (PInt n)
                    Hreply1 Hstatus Hjson Htok Hexp) as Hread.
      rewrite Hrefresh in Hread. simpl in Hread.
      assert (Hfits1 : lifetime_fits_at env n (clock_reads s1))
        by (apply Hfits; lia).
      pose proof (refresh_token_stores env s1 response d tok n
                    Hreply1 Hstatus Hjson Htok Hexp Hfits1) as Hstored.
      rewrite Hrefresh in Hstored. inversion Hstored; subst; clear Hstored.
      simpl. split; [eapply Hpass; reflexivity | split; [reflexivity |]].
      exists (clock_reads s1). split; [lia | reflexivity].
  - unfold token_step. split; [lia | split].
    + left. auto.
    + intros Hs _. specialize (Htrue Hs). discriminate.
Qed.

Lemma ensure_token_step (env : Env) (s : State) :
  exists o s1, ensure_token env s = (Ok o, s1) /\ token_step env s o s1.
Proof.
  destruct (cache_stale_run env s) as (b & s0 & Hstale & _).
  pose proof (token_step_of_view env s b s0 Hstale) as Hstep.
  unfold ensure_token, bind. rewrite Hstale.
  destruct b.
  - destruct Hstep as (resp & s' & Hview & Hstep).
    unfold try_except, bind. rewrite Hview.
    destruct resp as [body status]. simpl.
    destruct (status =? 200) eqn:Hstatus; simpl;
      (do 2 eexists; split; [reflexivity |]); apply Hstep;
      intros body' tok rest Heq _; inversion Heq; subst.
    + reflexivity.
    + discriminate.
  - exists None, s0. split; [reflexivity | exact Hstep].
Qed.

Lemma ensure_token_barcode_step (env : Env) (s : State) :
  exists o s1,
    ensure_token_barcode env s = (Ok o, s1) /\ token_step env s o s1.
Proof.
  destruct (cache_stale_run env s) as (b & s0 & Hstale & _).
  pose proof (token_step_of_view env s b s0 Hstale) as Hstep.
  unfold ensure_token_barcode, bind. rewrite Hstale.
  destruct b.
  - destruct Hstep as (resp & s' & Hview & Hstep).
    unfold try_except, bind. rewrite Hview.
    destruct resp as [body status]. unfold lift, ret, rbind. simpl.
    destruct (status =? 200) eqn:Hstatus; simpl.
    + repeat (split_match; simpl);
        (do 2 eexists; split; [reflexivity |]); apply Hstep;
        intros body' tok rest Heq Hshape; inversion Heq; subst;
        simpl in *; try discriminate; try reflexivity;
        unfold has_key in *; simpl in *;
        repeat match goal with
               | H : Ok _ = Ok _ |- _ => inversion H; clear H; subst
               end;
        simpl in *; discriminate.
    + repeat (split_match; simpl);
        (do 2 eexists; split; [reflexivity |]); apply Hstep;
        intros body' tok rest Heq Hshape; inversion Heq; subst;
        simpl in *; try discriminate; try reflexivity;
        unfold has_key in *; simpl in *;
        repeat match goal with
               | H : Ok _ = Ok _ |- _ => inversion H; clear H; subst
               end;
        simpl in *; discriminate.
  - exists None, s0. split; [reflexivity | exact Hstep].
Qed.

(** ** The upstream call *)

(** [forward] posts its request, answers from the reply and touches
    neither the cache nor the clock. *)
Lemma forward_run (env : Env) (req : Request) (w : Wording)
      (on_200 : pyval -> result FlaskResponse) (s : State) :
  forward env req w on_200 s
  = (reply_to w on_200 (network env (List.length (sent s))),
     mkState (cached_token s) (token_expiry s) (clock_reads s)
             (sent s ++ [req])%list).
Proof.
  unfold forward, reply_to. run.
  destruct (network env (List.length (sent s))) as [response | e]; simpl.
  - destruct (status_code response =? 200); simpl; [| reflexivity].
    destruct (json response) as [body | e]; simpl.
    + destruct (on_200 body); reflexivity.
    + reflexivity.
  - reflexivity.
Qed.

Lemma proxy_run (env : Env) (w : Wording)
      (on_200 : pyval -> result FlaskResponse)
      (ensure : M (option FlaskResponse)) (auth_payload : Payload)
      (s : State) (r : result FlaskResponse) (s' : State) :
  (exists o s1, ensure s = (Ok o, s1) /\ token_step env s o s1) ->
  (let* early := ensure in
   match early with
   | Some token_response => ret token_response
   | None =>
       let* tok := get_cached_token in
       forward env (mkRequest fatsecret_url (Bearer tok) auth_payload) w on_200
   end) s = (r, s') ->
  proxied env w on_200 s r s'.
Proof.
  intros (o & s1 & Hensure & Hstep) Hrun.
  unfold bind in Hrun. rewrite Hensure in Hrun.
  exists o, s1. split; [exact Hstep |].
  destruct o as [token_response |].
  - unfold ret in Hrun. inversion Hrun. auto.
  - unfold get_cached_token in Hrun. rewrite forward_run in Hrun.
    inversion Hrun. eexists. split; [| split; reflexivity]. reflexivity.
Qed.

(** ** The four proxy views *)

(** A request that validation turns down, or that makes the view raise
    before its token step, leaves the state as it was; any other request
    is proxied. *)
Lemma json_view_unaccepted (k message : string) (data : pyval)
      (rest : pyval -> M FlaskResponse) (s : State)
      (r : result FlaskResponse) (s' : State) :
  field_given data k = false ->
  (if negb (truthy data) then ret (bad_request "No JSON data received")
   else
     let* v := lift (py_get data k (PStr "")) in
     if negb (truthy v) then ret (bad_request message) else rest v) s
  = (r, s') ->
  s' = s.
Proof.
  intros Hgiven Hrun. unfold field_given in Hgiven.
  destruct (truthy data) eqn:Htruthy; simpl in *.
  - destruct data; simpl in *; try discriminate;
      try (unfold bind, lift in Hrun; simpl in Hrun; inversion Hrun; reflexivity).
    unfold bind, lift, ret in Hrun. simpl in Hrun.
    destruct (dict_get d k) as [v |]; simpl in Hrun.
    + rewrite Hgiven in Hrun. simpl in Hrun. inversion Hrun; reflexivity.
    + inversion Hrun; reflexivity.
  - unfold ret in Hrun. inversion Hrun; reflexivity.
Qed.

Lemma json_view_accepted (k message : string) (data : pyval)
      (rest : pyval -> M FlaskResponse) (s : State)
      (r : result FlaskResponse) (s' : State) :
  field_given data k = true ->
  (if negb (truthy data) then ret (bad_request "No JSON data received")
   else
     let* v := lift (py_get data k (PStr "")) in
     if negb (truthy v) then ret (bad_request message) else rest v) s
  = (r, s') ->
  exists d v,
    data = PDict d /\ dict_get d k = Some v /\ truthy v = true
    /\ rest v s = (r, s').
Proof.
  intros Hgiven Hrun. unfold field_given in Hgiven.
  apply andb_true_iff in Hgiven. destruct Hgiven as [Htruthy Hfield].
  destruct data; try discriminate.
  destruct (dict_get d k) as [v |] eqn:Hget; try discriminate.
  exists d, v. repeat split; auto.
  rewrite Htruthy in Hrun. simpl in Hrun. unfold bind, lift in Hrun.
  simpl in Hrun. rewrite Hget, Hfield in Hrun. exact Hrun.
Qed.

Lemma bind_lift_ok {A B : Type} (a : A) (k : A -> M B) (s : State) :
  bind (lift (Ok a)) k s = k a s.
Proof. reflexivity. Qed.

(** What [request.json] raises leaves the view at once. *)
Lemma bind_lift_raise {A B : Type} (e : exn) (k : A -> M B) (s : State) :
  bind (lift (Raise e)) k s = (Raise e, s).
Proof. reflexivity. Qed.

Lemma handle_run (env : Env) (route : Route) (s : State)
      (r : result FlaskResponse) (s' : State) :
  is_proxy route = true ->
  handle env route s = (r, s') ->
  (accepted route = false /\ s' = s)
  \/ (accepted route = true
      /\ proxied env (wording_of route) (on_200_of route) s r s').
Proof.
  intros Hproxy Hrun.
  destruct route as [| [data | e] | [data | e] | files | [data | e]];
    simpl in *; try discriminate;
    try (left; split; [reflexivity |];
         unfold search_foods, get_food_details, lookup_barcode in Hrun;
         rewrite bind_lift_raise in Hrun; inversion Hrun; reflexivity).
  - unfold search_foods in Hrun. rewrite bind_lift_ok in Hrun.
    destruct (field_given data "query") eqn:Hgiven.
    + right. split; [reflexivity |].
      apply json_view_accepted in Hrun; [| exact Hgiven].
      destruct Hrun as (d & v & -> & _ & _ & Hrun).
      simpl in Hrun. rewrite !bind_lift_ok in Hrun.
      eapply proxy_run; [apply ensure_token_step | exact Hrun].
    + left. split; [reflexivity |].
      apply json_view_unaccepted in Hrun; [exact Hrun | exact Hgiven].
  - unfold get_food_details in Hrun. rewrite bind_lift_ok in Hrun.
    destruct (field_given data "food_id") eqn:Hgiven.
    + right. split; [reflexivity |].
      apply json_view_accepted in Hrun; [| exact Hgiven].
      destruct Hrun as (d & v & -> & _ & _ & Hrun).
      eapply proxy_run; [apply ensure_token_step | exact Hrun].
    + left. split; [reflexivity |].
      apply json_view_unaccepted in Hrun; [exact Hrun | exact Hgiven].
  - unfold recognize_food_from_image in Hrun.
    destruct (files_get files "image") as [image_file |].
    + destruct (filename image_file =? "")%string; simpl.
      * left. unfold ret in Hrun. inversion Hrun. auto.
      * right. split; [reflexivity |].
        eapply proxy_run; [apply ensure_token_step | exact Hrun].
    + left. unfold ret in Hrun. inversion Hrun. auto.
  - unfold lookup_barcode in Hrun. rewrite bind_lift_ok in Hrun.
    destruct (field_given data "barcode") eqn:Hgiven.
    + right. split; [reflexivity |].
      apply json_view_accepted in Hrun; [| exact Hgiven].
      destruct Hrun as (d & v & -> & _ & _ & Hrun).
      eapply proxy_run; [apply ensure_token_barcode_step | exact Hrun].
    + left. split; [reflexivity |].
      apply json_view_unaccepted in Hrun; [exact Hrun | exact Hgiven].
Qed.

(** ** What a run posted *)

Lemma skipn_own_length {A : Type} (l l' : list A) :
  skipn (List.length l) (l ++ l')%list = l'.
Proof. induction l as [| a l IH]; simpl; auto. Qed.

Lemma new_requests_app (s s' : State) (l : list Request) :
  sent s' = (sent s ++ l)%list -> new_requests s s' = l.
Proof. unfold new_requests. intros ->. apply skipn_own_length. Qed.

Lemma new_requests_none (s s' : State) :
  sent s' = sent s -> new_requests s s' = [].
Proof.
  intros H. apply new_requests_app. rewrite H. symmetry. apply app_nil_r.
Qed.

Lemma token_request_not_api (env : Env) :
  is_api_request (token_request env) = false.
Proof. reflexivity. Qed.

Lemma token_request_is_token (env : Env) :
  is_token_request (token_request env) = true.
Proof. reflexivity. Qed.


(** A run that left the history alone made no upstream call. *)
Lemma no_request_no_reply (env : Env) (s s' : State) :
  sent s' = sent s -> upstream_reply env s s' = None.
Proof.
  intros H. unfold upstream_reply. rewrite (new_requests_none s s' H).
  reflexivity.
Qed.

(** The requests of a token step, in a form that covers both ways. *)
Lemma token_step_sent (env : Env) (s : State) (o : option FlaskResponse)
      (s1 : State) :
  token_step env s o s1 ->
  (sent s1 = (sent s ++ [])%list /\ o = None)
  \/ sent s1 = (sent s ++ [token_request env])%list.
Proof.
  intros (_ & [(H & _ & Ho) | H] & _); [left | right; exact H].
  rewrite app_nil_r. auto.
Qed.

(** The reply a proxied run answers from is the reply to its upstream
    call. *)
Lemma proxied_upstream_reply (env : Env) (w : Wording)
      (on_200 : pyval -> result FlaskResponse) (s : State)
      (r : result FlaskResponse) (s' : State) (reply : result Response) :
  proxied env w on_200 s r s' ->
  upstream_reply env s s' = Some reply ->
  r = reply_to w on_200 reply.
Proof.
  intros (o & s1 & Hstep & Hshape) Hreply.
  pose proof (token_step_sent env s o s1 Hstep) as Hsent.
  destruct o as [token_response |].
  - destruct Hshape as [_ ->].
    destruct Hsent as [[_ Hnone] | Hsent]; [discriminate |].
    unfold upstream_reply in Hreply.
    rewrite (new_requests_app s s1 _ Hsent) in Hreply. simpl in Hreply.
    discriminate.
  - destruct Hshape as (req & Hapi & -> & ->).
    unfold upstream_reply in Hreply. simpl in Hreply.
    assert (Hnew : exists pre,
               new_requests s
                 (mkState (cached_token s1) (token_expiry s1) (clock_reads s1)
                          (sent s1 ++ [req])%list) = (pre ++ [req])%list).
    { destruct Hsent as [[Hsent _] | Hsent]; eexists;
        apply new_requests_app; simpl; rewrite Hsent, <- app_assoc;
        reflexivity. }
    destruct Hnew as (pre & Hnew). rewrite Hnew, rev_unit, Hapi in Hreply.
    rewrite length_app in Hreply. simpl in Hreply.
    replace (List.length (sent s1) + 1 - 1)%nat with (List.length (sent s1))
      in Hreply by lia.
    inversion Hreply. reflexivity.
Qed.

(** Every run of a proxy view answers from the reply to its upstream
    call, when it made one. *)
Lemma upstream_reply_decides (env : Env) (route : Route) (s : State)
      (r : result FlaskResponse) (s' : State) (reply : result Response) :
  is_proxy route = true ->
  handle env route s = (r, s') ->
  upstream_reply env s s' = Some reply ->
  accepted route = true
  /\ r = reply_to (wording_of route) (on_200_of route) reply.
Proof.
  intros Hproxy Hrun Hreply.
  destruct (handle_run env route s r s' Hproxy Hrun)
    as [[_ ->] | [Hacc Hproxied]].
  - rewrite (no_request_no_reply env s s eq_refl) in Hreply. discriminate.
  - split; [exact Hacc |].
    eapply proxied_upstream_reply; eassumption.
Qed.

(** ** Mapping the upstream reply *)

(** C7.  When the upstream food-API call of a search, food-details or
    image-recognition request answers with a status other than 200, the
    view returns a body with an [error] field and a [details] field that
    holds the raw text of the upstream body, under the upstream status. *)
Theorem upstream_error_passed_on (env : Env) (route : Route) (s s' : State)
        (r : result FlaskResponse) (response : Response) :
  passes_through route = true ->
  handle env route s = (r, s') ->
  upstream_reply env s s' = Some (Ok response) ->
  status_code response <> 200 ->
  r = Ok (PDict [("error",
                  PStr ("FatSecret API returned status "
                          ++ str_of_int (status_code response)));
                 ("details", PStr (text response))],
          status_code response).
Proof.
  intros Hroute Hrun Hreply Hstatus.
  assert (Hproxy : is_proxy route = true) by (destruct route; auto).
  destruct (upstream_reply_decides env route s r s' _ Hproxy Hrun Hreply)
    as [_ ->].
  unfold reply_to. apply Z.eqb_neq in Hstatus. rewrite Hstatus. simpl.
  destruct route; try discriminate; reflexivity.
Qed.

(** A search answered 503 by the food API. *)
Lemma upstream_error_passed_on_witness :
  let busy := mkResponse 503 "Service Unavailable"
                         (Raise (mkExn JSONDecodeError "Expecting value")) in
  fst (handle (always busy) (PostSearch (Ok (PDict [("query", PStr "apple")]))) warm)
  = Ok (PDict [("error", PStr "FatSecret API returned status 503");
               ("details", PStr "Service Unavailable")],
        503).
Proof.
  intros busy.
  apply (upstream_error_passed_on
           (always busy) (PostSearch (Ok (PDict [("query", PStr "apple")]))) warm
           (snd (handle (always busy)
                        (PostSearch (Ok (PDict [("query", PStr "apple")]))) warm))
           _ busy eq_refl (surjective_pairing _));
    [reflexivity | discriminate].
Defined.

(** C6.  When the upstream call of a food-details request answers 200 with
    a body that parses as JSON, the view returns that parsed body as it is,
    with status 200. *)
Theorem food_details_passed_through (env : Env) (data : pyval) (s s' : State)
        (r : result FlaskResponse) (response : Response) (body : pyval) :
  get_food_details env (Ok data) s = (r, s') ->
  upstream_reply env s s' = Some (Ok response) ->
  status_code response = 200 ->
  json response = Ok body ->
  r = Ok (body, 200).
Proof.
  intros Hrun Hreply Hstatus Hjson.
  destruct (upstream_reply_decides env (PostFoodDetails (Ok data)) s r s' _
              eq_refl Hrun Hreply) as [_ ->].
  unfold reply_to. rewrite Hstatus, Hjson. reflexivity.
Qed.

(** The details of food 12345, passed through. *)
Lemma food_details_passed_through_witness :
  let body := PDict [("food", PDict [("food_id", PStr "12345")])] in
  let upstream :=
    mkResponse 200
      ("{" ++ quoted "food" ++ ": {" ++ quoted "food_id" ++ ": "
           ++ quoted "12345" ++ "}}")
      (Ok body) in
  fst (get_food_details (always upstream)
                        (Ok (PDict [("food_id", PStr "12345")])) warm)
  = Ok (body, 200).
Proof.
  intros body upstream.
  apply (food_details_passed_through
           (always upstream) (PDict [("food_id", PStr "12345")]) warm
           (snd (get_food_details (always upstream)
                                  (Ok (PDict [("food_id", PStr "12345")])) warm))
           _ upstream body (surjective_pairing _));
    reflexivity.
Defined.

Lemma has_value_dict (food_id : list (string * pyval)) :
  has_value (PDict food_id) = Ok (has_key food_id "value").
Proof.
  unfold has_value. destruct food_id as [| [k v] rest]; reflexivity.
Qed.

Lemma has_value_other (v : pyval) :
  is_dict v = false -> has_value v = Ok false.
Proof.
  intros H. unfold has_value. rewrite H, andb_false_r. reflexivity.
Qed.

(** The test of line 413 is [food_id_with_value]. *)
Lemma found_food_id (d : list (string * pyval)) :
  (let? present := py_in "food_id" (PDict d) in
   if present then
     let? food_id := py_getitem (PDict d) "food_id" in
     has_value food_id
   else Ok false)
  = Ok (food_id_with_value d).
Proof.
  unfold food_id_with_value. simpl. unfold has_key.
  destruct (dict_get d "food_id") as [v |]; simpl; [| reflexivity].
  destruct v; try (apply has_value_other; reflexivity).
  apply has_value_dict.
Qed.

(** C5.  When the upstream call of a barcode lookup answers 200 with a
    JSON object that holds [food_id] as an object with a [value] field and
    holds no [error] key, the view returns 200 with exactly the two fields
    [food_id], that value, and [food_name], the placeholder text. *)
Theorem barcode_found (env : Env) (data : pyval) (s s' : State)
        (r : result FlaskResponse) (response : Response)
        (d food_id : list (string * pyval)) (value : pyval) :
  lookup_barcode env (Ok data) s = (r, s') ->
  upstream_reply env s s' = Some (Ok response) ->
  status_code response = 200 ->
  json response = Ok (PDict d) ->
  dict_get d "food_id" = Some (PDict food_id) ->
  dict_get food_id "value" = Some value ->
  dict_get d "error" = None ->
  r = Ok (PDict [("food_id", value);
                 ("food_name", PStr "Food Item (Details will be fetched)")],
          200).
Proof.
  intros Hrun Hreply Hstatus Hjson Hfood Hvalue Herror.
  destruct (upstream_reply_decides env (PostBarcodeLookup (Ok data)) s r s' _
              eq_refl Hrun Hreply) as [_ ->].
  unfold reply_to. rewrite Hstatus, Hjson. simpl.
  unfold barcode_reply. rewrite found_food_id.
  unfold food_id_with_value, has_key. rewrite Hfood, Hvalue. simpl.
  unfold has_key. rewrite Herror, Hfood.
  rewrite has_value_dict. unfold has_key. simpl. rewrite Hvalue.
  reflexivity.
Qed.

(** A barcode that resolves to food 999. *)
Lemma barcode_found_witness :
  let body := PDict [("food_id", PDict [("value", PStr "999")])] in
  let upstream :=
    mkResponse 200
      ("{" ++ quoted "food_id" ++ ": {" ++ quoted "value" ++ ": "
           ++ quoted "999" ++ "}}")
      (Ok body) in
  fst (lookup_barcode (always upstream)
                      (Ok (PDict [("barcode", PStr "0123456789012")])) warm)
  = Ok (PDict [("food_id", PStr "999");
               ("food_name", PStr "Food Item (Details will be fetched)")],
        200).
Proof.
  intros body upstream.
  apply (barcode_found
           (always upstream) (PDict [("barcode", PStr "0123456789012")]) warm
           (snd (lookup_barcode (always upstream)
                                (Ok (PDict [("barcode", PStr "0123456789012")]))
                                warm))
           _ upstream
           [("food_id", PDict [("value", PStr "999")])]
           [("value", PStr "999")] (PStr "999")
           (surjective_pairing _));
    reflexivity.
Defined.

(** ** Validation *)

(** The view of a JSON body whose required field is missing answers 400 at
    once: "No JSON data received" on a falsy body, the view's own message
    on a dict without a truthy value for the field. *)
Lemma json_view_rejected (k message : string) (data : pyval)
      (rest : pyval -> M FlaskResponse) (s : State) :
  field_missing data k = true ->
  (if negb (truthy data) then ret (bad_request "No JSON data received")
   else
     let* v := lift (py_get data k (PStr "")) in
     if negb (truthy v) then ret (bad_request message) else rest v) s
  = (Ok (bad_request (if truthy data then message
                      else "No JSON data received")), s).
Proof.
  intros Hmissing. unfold field_missing in Hmissing.
  destruct (truthy data) eqn:Htruthy; simpl in *; [| reflexivity].
  destruct data; try discriminate.
  unfold bind, lift, ret. simpl.
  destruct (dict_get d k) as [v |]; simpl.
  - rewrite Hmissing. reflexivity.
  - reflexivity.
Qed.

(** A request that validation turns down is answered by [bad_request]
    and leaves the state as it was. *)
Lemma rejected_run (env : Env) (route : Route) (s s' : State)
      (r : result FlaskResponse) :
  rejected route = true ->
  handle env route s = (r, s') ->
  (exists message, r = Ok (bad_request message)) /\ s' = s.
Proof.
  intros Hrejected Hrun.
  destruct route as [| [data | e] | [data | e] | files | [data | e]];
    simpl in *; try discriminate.
  - unfold search_foods in Hrun. rewrite bind_lift_ok in Hrun.
    rewrite (json_view_rejected "query") in Hrun by exact Hrejected.
    inversion Hrun. eauto.
  - unfold get_food_details in Hrun. rewrite bind_lift_ok in Hrun.
    rewrite (json_view_rejected "food_id") in Hrun by exact Hrejected.
    inversion Hrun. eauto.
  - unfold recognize_food_from_image in Hrun.
    destruct (files_get files "image") as [image_file |].
    + rewrite Hrejected in Hrun. inversion Hrun. eauto.
    + inversion Hrun. eauto.
  - unfold lookup_barcode in Hrun. rewrite bind_lift_ok in Hrun.
    rewrite (json_view_rejected "barcode") in Hrun by exact Hrejected.
    inversion Hrun. eauto.
Qed.

(** What [request.json] raises leaves the view, with the state as it
    was. *)
Lemma raising_run (env : Env) (route : Route) (s : State) (e : exn) :
  request_json_of route = Some (Raise e) ->
  handle env route s = (Raise e, s).
Proof.
  intros Hraise.
  destruct route as [| [data | e'] | [data | e'] | files | [data | e']];
    simpl in *; try discriminate; inversion Hraise; subst; reflexivity.
Qed.

(** C10, as amended.  A request that the validation at the head of its
    view turns down ([request.json] returns a falsy value, or a JSON
    object whose [query], [food_id] or [barcode] is missing or falsy; the
    upload has no [image] file or one with an empty file name) is answered
    400 with an [error] message before the token logic runs: the state
    after is the state before, so the cached token and its expiry are
    unchanged, the clock was not read and no request, for a token or to
    the food API, was posted.  A request for which [request.json] itself
    raises (no body, no JSON content type, a body that does not parse) is
    not answered by the view at all: the exception leaves it before line
    95, likewise with the state unchanged and nothing posted. *)
Theorem rejected_request_touches_nothing (env : Env) (route : Route)
        (s s' : State) (r : result FlaskResponse) :
  handle env route s = (r, s') ->
  (rejected route = true ->
   (exists message, r = Ok (PDict [("error", PStr message)], 400))
   /\ s' = s
   /\ new_requests s s' = [])
  /\ (forall e,
        request_json_of route = Some (Raise e) ->
        r = Raise e /\ s' = s /\ new_requests s s' = []).
Proof.
  intros Hrun. split.
  - intros Hrejected.
    destruct (rejected_run env route s s' r Hrejected Hrun) as [Hmessage ->].
    split; [exact Hmessage | split; [reflexivity |]].
    apply new_requests_none. reflexivity.
  - intros e Hraise.
    rewrite (raising_run env route s e Hraise) in Hrun.
    inversion Hrun; subst.
    split; [reflexivity | split; [reflexivity |]].
    apply new_requests_none. reflexivity.
Qed.

(** C10 as stated fails at a search whose body is the array [1]: the body
    has no [query], yet the view does not answer 400; [data.get] raises
    and the exception leaves the view.  It fails too where [request.json]
    raises, as it does for a request without a JSON body: the view
    returns nothing. *)
Lemma unvalidated_requests_are_not_answered_400 :
  let array := PostSearch (Ok (PList [PInt 1])) in
  let bodiless :=
    PostSearch (Raise (mkExn UnsupportedMediaType "415 Unsupported Media Type"))
  in
  (~ exists body, fst (handle (always grant) array cold) = Ok (body, 400))
  /\ exn_kind_of (fst (handle (always grant) array cold)) = Some AttributeError
  /\ (~ exists body, fst (handle (always grant) bodiless cold) = Ok (body, 400))
  /\ exn_kind_of (fst (handle (always grant) bodiless cold))
     = Some UnsupportedMediaType.
Proof.
  repeat split; try reflexivity; intros [body H]; discriminate H.
Qed.

(** A lookup with an empty barcode. *)
Lemma rejected_request_touches_nothing_witness :
  let route := PostBarcodeLookup (Ok (PDict [("barcode", PStr "")])) in
  (exists message,
      fst (handle (always grant) route cold)
      = Ok (PDict [("error", PStr message)], 400))
  /\ snd (handle (always grant) route cold) = cold
  /\ new_requests cold (snd (handle (always grant) route cold)) = [].
Proof.
  intros route.
  apply (proj1 (rejected_request_touches_nothing
                  (always grant) route cold
                  (snd (handle (always grant) route cold))
                  (fst (handle (always grant) route cold))
                  (surjective_pairing _))).
  reflexivity.
Defined.

(** C4, as amended.  A search for which [request.json] returns a falsy
    value (null, the empty object, array or string, zero, false), or a
    JSON object without a truthy [query], is answered 400 with an [error]
    field alone: "No JSON data received" for a falsy body, which the body
    {} is, and "No search query provided" for an object without a usable
    query; only the second message mentions the query.  A search without
    a body that parses never reaches these tests: what [request.json]
    raises leaves the view, which returns nothing. *)
Theorem search_without_query_is_bad_request (env : Env) (data : pyval)
        (s : State) :
  (field_missing data "query" = true ->
   search_foods env (Ok data) s
   = (Ok (PDict [("error",
                  PStr (if truthy data then "No search query provided"
                        else "No JSON data received"))],
          400),
      s)
   /\ mentions "query" (fst (search_foods env (Ok data) s)) = truthy data)
  /\ (forall e, search_foods env (Raise e) s = (Raise e, s)).
Proof.
  split; [| reflexivity].
  intros Hmissing. unfold search_foods. rewrite bind_lift_ok.
  rewrite (json_view_rejected "query") by exact Hmissing.
  split; [reflexivity |].
  destruct (truthy data); reflexivity.
Qed.

(** C4 as stated fails at the body {}: the answer is 400, but its error
    is "No JSON data received", which does not mention the query. *)
Lemma empty_object_error_omits_query :
  let r := fst (search_foods (always grant) (Ok (PDict [])) cold) in
  status_of r = Some 400
  /\ error_text r = Some "No JSON data received"
  /\ ~ mentions "query" r = true.
Proof.
  repeat split; try (vm_compute; reflexivity).
  vm_compute. discriminate.
Qed.

(** A search that gives a page number but no query. *)
Lemma search_without_query_is_bad_request_witness :
  let data := PDict [("page_number", PStr "2")] in
  search_foods (always grant) (Ok data) cold
  = (Ok (PDict [("error", PStr "No search query provided")], 400), cold)
  /\ mentions "query" (fst (search_foods (always grant) (Ok data) cold)) = true.
Proof.
  apply (proj1 (search_without_query_is_bad_request
                  (always grant) (PDict [("page_number", PStr "2")]) cold)).
  reflexivity.
Defined.

(** ** Refreshing a stale cache *)






(** ** Serving the cached token *)

(** While the token is truthy and the clock reading of the test lies
    before the expiry, the token view answers 200 with the cached token
    and the seconds field of the time left at its second reading, posts
    nothing and leaves the cache alone. *)
Lemma cached_token_served (env : Env) (s : State) (t : Z) :
  truthy (cached_token s) = true ->
  token_expiry s = Some t ->
  clock env (clock_reads s) < t ->
  get_fatsecret_token env s
  = (Ok (PDict [("access_token", cached_token s);
                ("expires_in",
                 PInt (timedelta_seconds_field
                         t (clock env (S (clock_reads s)))))],
         200),
     mkState (cached_token s) (token_expiry s) (S (S (clock_reads s)))
             (sent s)).
Proof.
  intros Htruthy Hexpiry Hbefore.
  unfold get_fatsecret_token, cache_fresh. run.
  rewrite Htruthy, Hexpiry. simpl.
  apply Z.ltb_lt in Hbefore. rewrite Hbefore. simpl.
  rewrite ?Hexpiry. reflexivity.
Qed.

(** With less than a day left the seconds field is the whole number of
    seconds left. *)
Lemma seconds_field_within_a_day (a b : Z) :
  0 <= a - b < usec_per_day ->
  timedelta_seconds_field a b = whole_seconds_between a b.
Proof.
  intros H. unfold timedelta_seconds_field, whole_seconds_between.
  rewrite Z.mod_small by exact H. reflexivity.
Qed.

(** C2, at a token with 25 hours left.  The view answers 200 with the
    cached token, without a request and without touching the cache, but
    the [expires_in] it reports is 3600: the seconds field of a timedelta
    of one day and one hour, where 90000 seconds remain. *)
Example cached_token_with_25_hours_left :
  let env := mkEnv "id" "secret" steady_clock (fun _ => unreachable) in
  let expiry := new_year_2025 + 90000 * usec_per_second in
  let s := mkState (PStr "abc") (Some expiry) 0 [] in
  get_fatsecret_token env s
  = (Ok (PDict [("access_token", PStr "abc"); ("expires_in", PInt 3600)], 200),
     mkState (PStr "abc") (Some expiry) 2 [])
  /\ whole_seconds_between expiry new_year_2025 = 90000.
Proof. split; vm_compute; reflexivity. Qed.

(** ** A refused token request *)

Lemma token_error_details_of_object (response : Response) (details : pyval) :
  refusal_details response = Some details ->
  token_error_details response = Ok details.
Proof.
  unfold refusal_details, token_error_details.
  destruct (json response) as [body | e]; simpl.
  - destruct body; try discriminate. simpl. unfold has_key.
    destruct (dict_get d "error_description"); simpl.
    + intros H; inversion H; reflexivity.
    + destruct (dict_get d "error"); simpl; intros H; inversion H; reflexivity.
  - destruct (is_ValueError e); [| discriminate].
    intros H; inversion H; reflexivity.
Qed.

(** On such a body the refresh answers 400, names the upstream status in
    its [error] and keeps the state but for the history. *)
Lemma token_refusal_reported (env : Env) (s : State) (response : Response)
      (details : pyval) :
  token_reply env s = Ok response ->
  status_code response <> 200 ->
  refusal_details response = Some details ->
  refresh_token env s
  = (Ok (PDict [("error",
                 PStr ("FatSecret token request failed: "
                         ++ str_of_int (status_code response)));
                ("details", details)],
         400),
     mkState (cached_token s) (token_expiry s) (clock_reads s)
             (sent s ++ [token_request env])%list).
Proof.
  intros Hreply Hstatus Hdetails. unfold refresh_token, token_reply in *.
  run. rewrite Hreply. simpl.
  apply Z.eqb_neq in Hstatus. rewrite Hstatus. simpl.
  rewrite (token_error_details_of_object response details Hdetails).
  reflexivity.
Qed.

(** So does the view, on a stale cache: the claim of C8 holds whenever the
    body is a JSON object or is not JSON. *)
Lemma token_view_refusal (env : Env) (s s' : State)
      (r : result FlaskResponse) (response : Response) (details : pyval) :
  stale_at env s ->
  get_fatsecret_token env s = (r, s') ->
  token_reply env s = Ok response ->
  status_code response <> 200 ->
  refusal_details response = Some details ->
  r = Ok (PDict [("error",
                  PStr ("FatSecret token request failed: "
                          ++ str_of_int (status_code response)));
                 ("details", details)],
          400).
Proof.
  intros Hstale Hrun Hreply Hstatus Hdetails.
  destruct (get_fatsecret_token_run env s)
    as (resp & s2 & Hrun' & _ & _ & _ & Hforced).
  rewrite Hrun in Hrun'. inversion Hrun'; subst r s2; clear Hrun'.
  destruct (Hforced Hstale) as (s1 & _ & Hsent & _ & Hrefresh).
  rewrite <- (token_reply_same_history env s s1 Hsent) in Hreply.
  rewrite (token_refusal_reported env s1 response details
             Hreply Hstatus Hdetails) in Hrefresh.
  inversion Hrefresh. reflexivity.
Qed.

(** C8, at a refusal whose body is the JSON value null.  The token
    endpoint answers 401; the body parses, to [None], and the membership
    test on it raises a TypeError that the [except ValueError] clause
    lets through: the view answers 500 "Exception during token fetch",
    not 400 with the raw body as details. *)
Example token_refusal_with_null_body :
  let refusal := mkResponse 401 "null" (Ok PNone) in
  let env := mkEnv "id" "secret" steady_clock (fun _ => Ok refusal) in
  let s := mkState PNone None 0 [] in
  status_of (fst (get_fatsecret_token env s)) = Some 500
  /\ error_text (fst (get_fatsecret_token env s))
     = Some "Exception during token fetch"
  /\ refusal_details refusal = None.
Proof. repeat split; vm_compute; reflexivity. Qed.

(** ** An upstream error object in a barcode lookup *)

(** The reply to an upstream error object: only the code 106 is answered;
    any other code reaches the call of [contains], which raises. *)
Lemma barcode_error_object (d error : list (string * pyval)) :
  food_id_with_value d = false ->
  dict_get d "error" = Some (PDict error) ->
  let code := match dict_get error "code" with
              | Some c => c
              | None => PStr "Unknown"
              end in
  (py_eq_int code 106 = true ->
   barcode_reply (PDict d)
   = Ok (PDict [("error", PStr "Food not found for this barcode")], 404))
  /\ (py_eq_int code 106 = false ->
      exists e, barcode_reply (PDict d) = Raise e
                /\ exn_kind e = AttributeError).
Proof.
  intros Hfound Herror code. unfold barcode_reply.
  rewrite found_food_id, Hfound. simpl. unfold has_key.
  rewrite Herror. simpl. fold code.
  split; intros Hcode; rewrite Hcode; simpl.
  - reflexivity.
  - destruct (dict_get error "message") as [message |]; simpl.
    + destruct message; simpl; eexists; split; reflexivity.
    + eexists; split; reflexivity.
Qed.

(** An AttributeError falls to the last [except] clause. *)
Lemma attribute_error_is_unexpected (w : Wording) (response : Response)
      (e : exn) :
  exn_kind e = AttributeError ->
  except_clauses w (Some response) e
  = Ok (PDict [("error", PStr (unexpected w)); ("details", PStr (exn_str e))],
        500).
Proof.
  intros H. unfold except_clauses, is_RequestException, is_JSONDecodeError.
  rewrite H. reflexivity.
Qed.

(** For every lookup whose upstream call answers 200 with an error
    object and no [food_id] with a [value]: 404 on code 106, and 500
    "Unexpected exception during barcode lookup" on any other code,
    whatever the message. *)
Lemma barcode_error_answer (env : Env) (data : pyval) (s s' : State)
      (r : result FlaskResponse) (response : Response)
      (d error : list (string * pyval)) :
  lookup_barcode env (Ok data) s = (r, s') ->
  upstream_reply env s s' = Some (Ok response) ->
  status_code response = 200 ->
  json response = Ok (PDict d) ->
  food_id_with_value d = false ->
  dict_get d "error" = Some (PDict error) ->
  let code := match dict_get error "code" with
              | Some c => c
              | None => PStr "Unknown"
              end in
  if py_eq_int code 106
  then r = Ok (PDict [("error", PStr "Food not found for this barcode")], 404)
  else status_of r = Some 500
       /\ error_text r = Some "Unexpected exception during barcode lookup".
Proof.
  intros Hrun Hreply Hstatus Hjson Hfound Herror code.
  destruct (upstream_reply_decides env (PostBarcodeLookup (Ok data)) s r s' _
              eq_refl Hrun Hreply) as [_ ->].
  unfold reply_to. rewrite Hstatus, Hjson. simpl.
  destruct (barcode_error_object d error Hfound Herror) as [H106 Hother].
  fold code in H106, Hother.
  destruct (py_eq_int code 106).
  - rewrite (H106 eq_refl). reflexivity.
  - destruct (Hother eq_refl) as (e & -> & Hkind).
    rewrite (attribute_error_is_unexpected _ _ _ Hkind). split; reflexivity.
Qed.

(** C3, at an error object whose code is not 106.  The message says "No
    item found", so the lookup should be answered 404; a second message
    says something else, so it should be answered 400 with that message.
    Both are answered 500 "Unexpected exception during barcode lookup":
    the test of the message calls [contains] on a str. *)
Example barcode_error_with_another_code :
  let lookup message :=
    let body :=
      PDict [("error", PDict [("code", PInt 211); ("message", PStr message)])]
    in
    let raw :=
      "{" ++ quoted "error" ++ ": {" ++ quoted "code" ++ ": 211, "
          ++ quoted "message" ++ ": " ++ quoted message ++ "}}" in
    fst (lookup_barcode
           (always (mkResponse 200 raw (Ok body)))
           (Ok (PDict [("barcode", PStr "0123456789012")])) warm) in
  contains "no item found" (lower "No item found") = true
  /\ status_of (lookup "No item found") = Some 500
  /\ error_text (lookup "No item found")
     = Some "Unexpected exception during barcode lookup"
  /\ contains "no item found" (lower "Invalid barcode") = false
  /\ status_of (lookup "Invalid barcode") = Some 500
  /\ error_text (lookup "Invalid barcode")
     = Some "Unexpected exception during barcode lookup".
Proof. repeat split; vm_compute; reflexivity. Qed.

(** * Further properties *)

(** ** A view past validation is its token step and its upstream call *)

Lemma json_view_given (k : string) (data : pyval) :
  field_given data k = true ->
  exists d v,
    data = PDict d /\ dict_get d k = Some v /\ truthy v = true
    /\ forall (message : string) (rest : pyval -> M FlaskResponse) (s : State),
        (if negb (truthy data) then ret (bad_request "No JSON data received")
         else
           let* v := lift (py_get data k (PStr "")) in
           if negb (truthy v) then ret (bad_request message) else rest v) s
        = rest v s.
Proof.
  intros Hgiven. unfold field_given in Hgiven.
  apply andb_true_iff in Hgiven. destruct Hgiven as [Htruthy Hfield].
  destruct data; try discriminate.
  destruct (dict_get d k) as [v |] eqn:Hget; try discriminate.
  exists d, v. repeat split; auto.
  intros message rest s. rewrite Htruthy. simpl. unfold bind, lift. simpl.
  rewrite Hget, Hfield. reflexivity.
Qed.

Lemma handle_accepted (env : Env) (route : Route) :
  is_proxy route = true ->
  accepted route = true ->
  exists body,
    payload_of route = Some body
    /\ forall s,
        handle env route s
        = proxy env (ensure_of route env) body (wording_of route)
                (on_200_of route) s.
Proof.
  intros Hproxy Haccepted.
  destruct route as [| [data | e] | [data | e] | files | [data | e]];
    simpl in *; try discriminate.
  - destruct (json_view_given "query" data Haccepted)
      as (d & v & -> & Hget & _ & Hrun).
    eexists. split; [reflexivity |]. intros s.
    unfold search_foods. rewrite bind_lift_ok, Hrun. simpl.
    rewrite !bind_lift_ok.
    unfold dict_get_default. rewrite Hget. reflexivity.
  - destruct (json_view_given "food_id" data Haccepted)
      as (d & v & -> & Hget & _ & Hrun).
    eexists. split; [reflexivity |]. intros s.
    unfold get_food_details. rewrite bind_lift_ok, Hrun.
    unfold dict_get_default. rewrite Hget. reflexivity.
  - unfold recognize_food_from_image.
    destruct (files_get files "image") as [image_file |]; [| discriminate].
    eexists. split; [reflexivity |]. intros s.
    apply negb_true_iff in Haccepted. rewrite Haccepted. reflexivity.
  - destruct (json_view_given "barcode" data Haccepted)
      as (d & v & -> & Hget & _ & Hrun).
    eexists. split; [reflexivity |]. intros s.
    unfold lookup_barcode. rewrite bind_lift_ok, Hrun.
    unfold dict_get_default. rewrite Hget. reflexivity.
Qed.

Lemma proxy_exact (env : Env) (ensure : M (option FlaskResponse))
      (body : Payload) (w : Wording)
      (on_200 : pyval -> result FlaskResponse)
      (s : State) (o : option FlaskResponse) (s1 : State) :
  ensure s = (Ok o, s1) ->
  proxy env ensure body w on_200 s
  = match o with
    | Some token_response => (Ok token_response, s1)
    | None =>
        (reply_to w on_200 (network env (List.length (sent s1))),
         posting s1 (api_request s1 body))
    end.
Proof.
  intros Hensure. unfold proxy, bind. rewrite Hensure.
  destruct o as [token_response |]; [reflexivity |].
  unfold get_cached_token. rewrite forward_run. reflexivity.
Qed.

(** ** A valid cache is reused *)





(** ** The requests of any run *)

Lemma ensure_of_step (env : Env) (route : Route) (s : State) :
  exists o s1, ensure_of route env s = (Ok o, s1) /\ token_step env s o s1.
Proof.
  destruct route; simpl;
    first [apply ensure_token_barcode_step | apply ensure_token_step].
Qed.

Lemma handle_shape (env : Env) (route : Route) (s s' : State)
      (r : result FlaskResponse) :
  handle env route s = (r, s') -> run_shape env route s s'.
Proof.
  intros Hrun. unfold run_shape.
  destruct (is_proxy route) eqn:Hproxy.
  - destruct (accepted route) eqn:Haccepted.
    + destruct (handle_accepted env route Hproxy Haccepted)
        as (body & Hbody & Heq).
      rewrite Heq in Hrun.
      destruct (ensure_of_step env route s) as (o & s1 & Hensure & Hstep).
      rewrite (proxy_exact env _ body _ _ s o s1 Hensure) in Hrun.
      destruct Hstep as (_ & Hways & _).
      destruct o as [token_response |]; inversion Hrun; subst; clear Hrun.
      * destruct Hways as [(_ & _ & Hnone) | Hsent]; [discriminate |].
        exists [token_request env], []. split; [| split; auto].
        apply new_requests_app. rewrite Hsent. reflexivity.
      * destruct Hways as [(Hsent & Hsame & _) | Hsent].
        -- exists [], [api_request s1 body]. split; [| split].
           ++ apply new_requests_app. simpl. rewrite Hsent. reflexivity.
           ++ left. split; [reflexivity | exact Hsame].
           ++ right. exists body. split; [exact Hbody | reflexivity].
        -- exists [token_request env], [api_request s1 body].
           split; [| split].
           ++ apply new_requests_app. simpl. rewrite Hsent, <- app_assoc.
              reflexivity.
           ++ right. reflexivity.
           ++ right. exists body. split; [exact Hbody | reflexivity].
    + destruct (handle_run env route s r s' Hproxy Hrun)
        as [[_ ->] | [Hyes _]]; [| congruence].
      exists [], []. split; [| split; auto].
      * apply new_requests_none. reflexivity.
      * left. split; [reflexivity | split; reflexivity].
  - destruct route; try discriminate. simpl in Hrun.
    destruct (get_fatsecret_token_run env s)
      as (resp & s2 & Hrun' & _ & _ & Hways & _).
    rewrite Hrun in Hrun'. inversion Hrun'; subst r s2; clear Hrun'.
    destruct Hways as [(Hsent & Hsame & _) | (s1 & _ & Hsent & _ & Hrefresh)].
    + exists [], []. split; [| split; auto].
      apply new_requests_none. exact Hsent.
    + destruct (refresh_token_run env s1) as (r2 & s2 & Hr2 & Hsent2 & _).
      rewrite Hrefresh in Hr2. inversion Hr2; subst r2 s2; clear Hr2.
      exists [token_request env], []. split; [| split; auto].
      apply new_requests_app. rewrite Hsent2, Hsent. reflexivity.
Qed.

(** X2.  No run of any view repeats a request: it posts at most the token
    request, once, and after it at most one request to the food API. *)
Theorem no_request_is_repeated (env : Env) (route : Route) (s s' : State)
        (r : result FlaskResponse) :
  handle env route s = (r, s') ->
  exists pre post,
    new_requests s s' = (pre ++ post)%list
    /\ (pre = [] \/ pre = [token_request env])
    /\ (post = [] \/ exists req, post = [req] /\ is_api_request req = true).
Proof.
  intros Hrun.
  destruct (handle_shape env route s s' r Hrun)
    as (pre & post & Hnew & Hpre & Hpost).
  exists pre, post. split; [exact Hnew | split].
  - destruct Hpre as [[-> _] | ->]; auto.
  - destruct Hpost as [-> | (body & _ & ->)]; [left; reflexivity |].
    right. eexists. split; reflexivity.
Qed.

(** X3.  The request a run posts to the food API carries the token that
    is in the cache when the run ends, so the granted one after a refresh,
    and the fields its view builds from the client's request. *)
Theorem api_request_bears_cached_token (env : Env) (route : Route)
        (s s' : State) (r : result FlaskResponse) (req : Request) :
  handle env route s = (r, s') ->
  In req (new_requests s s') ->
  is_api_request req = true ->
  authorization req = Bearer (cached_token s')
  /\ Some (payload req) = payload_of route.
Proof.
  intros Hrun Hin Hapi.
  destruct (handle_shape env route s s' r Hrun)
    as (pre & post & Hnew & Hpre & Hpost).
  rewrite Hnew in Hin. apply in_app_or in Hin.
  destruct Hin as [Hin | Hin].
  - destruct Hpre as [[-> _] | ->]; [destruct Hin |].
    destruct Hin as [<- | []]. discriminate.
  - destruct Hpost as [-> | (body & Hbody & ->)]; [destruct Hin |].
    destruct Hin as [<- | []]. simpl. auto.
Qed.

(** X4.  The views change the cache through a token refresh only: a run
    that posted no token request leaves the token and its expiry as they
    were. *)
Theorem cache_changes_only_by_refresh (env : Env) (route : Route)
        (s s' : State) (r : result FlaskResponse) :
  handle env route s = (r, s') ->
  filter is_token_request (new_requests s s') = [] ->
  cached_token s' = cached_token s /\ token_expiry s' = token_expiry s.
Proof.
  intros Hrun Hnone.
  destruct (handle_shape env route s s' r Hrun)
    as (pre & post & Hnew & Hpre & _).
  destruct Hpre as [[_ Hsame] | ->]; [exact Hsame |].
  rewrite Hnew in Hnone. simpl in Hnone. discriminate.
Qed.

(** ** Failures of the upstream call *)

(** X5.  When the request to the food API fails in transport (a
    [requests.RequestException]), each of the four views answers 500 with
    its own [error] text and the text of the exception as [details]. *)
Theorem transport_failure_answers_500 (env : Env) (route : Route)
        (s s' : State) (r : result FlaskResponse) (e : exn) :
  is_proxy route = true ->
  handle env route s = (r, s') ->
  upstream_reply env s s' = Some (Raise e) ->
  is_RequestException e = true ->
  r = Ok (PDict [("error", PStr (request_failed (wording_of route)));
                 ("details", PStr (exn_str e))],
          500).
Proof.
  intros Hproxy Hrun Hreply Hclass.
  destruct (upstream_reply_decides env route s r s' _ Hproxy Hrun Hreply)
    as [_ ->].
  unfold reply_to, except_clauses. rewrite Hclass. reflexivity.
Qed.

(** X6.  When the food API answers 200 with a body that does not parse,
    the views answer 500.  Which clause answers depends on the class of
    the decoding error: the one [requests] raises is a
    [RequestException] and gets the transport text, without the raw body;
    a bare [json.JSONDecodeError] gets the parse text and the raw body as
    [response]. *)
Theorem undecodable_body_answers_500 (env : Env) (route : Route)
        (s s' : State) (r : result FlaskResponse) (response : Response)
        (e : exn) :
  is_proxy route = true ->
  handle env route s = (r, s') ->
  upstream_reply env s s' = Some (Ok response) ->
  status_code response = 200 ->
  json response = Raise e ->
  is_JSONDecodeError e = true ->
  r = Ok (PDict (if is_RequestException e
                 then [("error", PStr (request_failed (wording_of route)));
                       ("details", PStr (exn_str e))]
                 else [("error", PStr (parse_failed (wording_of route)));
                       ("details", PStr (exn_str e));
                       ("response", PStr (text response))]),
          500).
Proof.
  intros Hproxy Hrun Hreply Hstatus Hjson Hclass.
  destruct (upstream_reply_decides env route s r s' _ Hproxy Hrun Hreply)
    as [_ ->].
  unfold reply_to. rewrite Hstatus, Hjson. simpl.
  unfold except_clauses. rewrite Hclass.
  destruct (is_RequestException e); reflexivity.
Qed.



(** X8.  A truthy body that is not a JSON object (a non-empty array or
    string, a number, true) makes the three views that read JSON raise an
    AttributeError at [data.get], outside any [try]: the exception escapes
    the view, before the token logic and with the state untouched. *)
Theorem non_object_body_escapes (env : Env) (route : Route) (data : pyval)
        (s : State) :
  json_body route = Some data ->
  truthy_non_object data = true ->
  handle env route s = (Raise (no_attribute data "get"), s).
Proof.
  intros Hroute Hdata. unfold truthy_non_object in Hdata.
  apply andb_true_iff in Hdata. destruct Hdata as [Htruthy Hshape].
  destruct route as [| [d | e] | [d | e] | files | [d | e]]; simpl in *;
    try discriminate;
    inversion Hroute; subst d;
    unfold search_foods, get_food_details, lookup_barcode;
    rewrite bind_lift_ok, Htruthy; simpl;
    destruct data; try discriminate; reflexivity.
Qed.

(** ** The replies of the barcode lookup *)

(** X9.  An upstream error object with code 106, the one the view knows
    as "not found", is answered 404 "Food not found for this barcode",
    whatever its message. *)
Theorem barcode_code_106_is_not_found (env : Env) (data : pyval)
        (s s' : State) (r : result FlaskResponse) (response : Response)
        (d error : list (string * pyval)) (code : pyval) :
  lookup_barcode env (Ok data) s = (r, s') ->
  upstream_reply env s s' = Some (Ok response) ->
  status_code response = 200 ->
  json response = Ok (PDict d) ->
  food_id_with_value d = false ->
  dict_get d "error" = Some (PDict error) ->
  dict_get error "code" = Some code ->
  py_eq_int code 106 = true ->
  r = Ok (PDict [("error", PStr "Food not found for this barcode")], 404).
Proof.
  intros Hrun Hreply Hstatus Hjson Hfound Herror Hcode H106.
  pose proof (barcode_error_answer env data s s' r response d error
                Hrun Hreply Hstatus Hjson Hfound Herror) as Hanswer.
  simpl in Hanswer. rewrite Hcode, H106 in Hanswer. exact Hanswer.
Qed.

(** X10.  A 200 body that is a JSON object with neither a usable
    [food_id] nor an [error] key is answered 404 "Food not found or
    unexpected API response." *)
Theorem barcode_unexpected_shape_is_404 (env : Env) (data : pyval)
        (s s' : State) (r : result FlaskResponse) (response : Response)
        (d : list (string * pyval)) :
  lookup_barcode env (Ok data) s = (r, s') ->
  upstream_reply env s s' = Some (Ok response) ->
  status_code response = 200 ->
  json response = Ok (PDict d) ->
  food_id_with_value d = false ->
  dict_get d "error" = None ->
  r = Ok (PDict [("error",
                  PStr "Food not found or unexpected API response.")],
          404).
Proof.
  intros Hrun Hreply Hstatus Hjson Hfound Herror.
  destruct (upstream_reply_decides env (PostBarcodeLookup (Ok data)) s r s' _
              eq_refl Hrun Hreply) as [_ ->].
  unfold reply_to. rewrite Hstatus, Hjson. simpl.
  unfold barcode_reply. rewrite found_food_id, Hfound. simpl.
  unfold has_key. rewrite Herror. reflexivity.
Qed.

(** X11.  A 200 body that holds both a [food_id] with a [value] and an
    [error] object with a [message] is taken for a miss: 404, with the
    upstream message as [details]; the [food_id] is not returned. *)
Theorem barcode_found_with_error_is_404 (env : Env) (data : pyval)
        (s s' : State) (r : result FlaskResponse) (response : Response)
        (d error : list (string * pyval)) (message : pyval) :
  lookup_barcode env (Ok data) s = (r, s') ->
  upstream_reply env s s' = Some (Ok response) ->
  status_code response = 200 ->
  json response = Ok (PDict d) ->
  food_id_with_value d = true ->
  dict_get d "error" = Some (PDict error) ->
  dict_get error "message" = Some message ->
  r = Ok (PDict [("error", PStr "Food not found for this barcode");
                 ("details", message)],
          404).
Proof.
  intros Hrun Hreply Hstatus Hjson Hfound Herror Hmessage.
  destruct (upstream_reply_decides env (PostBarcodeLookup (Ok data)) s r s' _
              eq_refl Hrun Hreply) as [_ ->].
  unfold reply_to. rewrite Hstatus, Hjson. simpl.
  unfold barcode_reply. rewrite found_food_id, Hfound. simpl.
  unfold has_key. rewrite Herror. simpl. rewrite Hmessage. reflexivity.
Qed.

(** ** The answers of the token view *)



(** X13.  The [expires_in] the view reports for a valid cached token is
    a whole number between 0 and 86399, however far off the expiry is. *)
Theorem cached_lifetime_is_below_a_day (env : Env) (s : State) :
  fresh_at env s ->
  exists n,
    fst (get_fatsecret_token env s)
    = Ok (PDict [("access_token", cached_token s); ("expires_in", PInt n)],
          200)
    /\ 0 <= n <= 86399.
Proof.
  intros (t & Htruthy & Hexpiry & Hbefore).
  rewrite (cached_token_served env s t Htruthy Hexpiry Hbefore). simpl.
  eexists. split; [reflexivity |].
  unfold timedelta_seconds_field.
  set (left := t - clock env (S (clock_reads s))).
  assert (Hmod : 0 <= left mod usec_per_day < usec_per_day)
    by (apply Z.mod_pos_bound; reflexivity).
  unfold usec_per_day, usec_per_second in *.
  split.
  - apply Z.div_pos; lia.
  - apply Z.lt_succ_r. apply Z.div_lt_upper_bound; lia.
Qed.


(** On a stale cache the view is a refresh, run from a state that differs
    from the first by clock readings only. *)
Lemma stale_view_is_refresh (env : Env) (s : State) :
  stale_at env s ->
  exists s1,
    same_cache s s1 /\ sent s1 = sent s
    /\ (clock_reads s <= clock_reads s1)%nat
    /\ get_fatsecret_token env s = refresh_token env s1.
Proof.
  intros Hstale.
  destruct (get_fatsecret_token_run env s)
    as (resp & s' & Hrun & _ & _ & _ & Hforced).
  destruct (Hforced Hstale) as (s1 & Hcache & Hsent & Hreads & Hrefresh).
  exists s1. repeat split; try apply Hcache; auto. congruence.
Qed.

(** X14.  A grant that states a token but no usable lifetime
    ([expires_in] absent, not a number, or beyond a timedelta) is answered
    500, and leaves the cache half written: the new token is stored, the
    expiry is the old one. *)
Theorem grant_without_lifetime_half_stored (env : Env) (s s' : State)
        (r : result FlaskResponse) (response : Response)
        (d : list (string * pyval)) (tok : pyval) (e : exn) :
  stale_at env s ->
  get_fatsecret_token env s = (r, s') ->
  token_reply env s = Ok response ->
  status_code response = 200 ->
  json response = Ok (PDict d) ->
  dict_get d "access_token" = Some tok ->
  stated_lifetime d = Raise e ->
  r = Ok (PDict [("error", PStr "Exception during token fetch");
                 ("details", PStr (exn_str e))],
          500)
  /\ cached_token s' = tok
  /\ token_expiry s' = token_expiry s.
Proof.
  intros Hstale Hrun Hreply Hstatus Hjson Htok Hlifetime.
  destruct (stale_view_is_refresh env s Hstale)
    as (s1 & [Hc1 Hc2] & Hsent & _ & Hview).
  rewrite Hview in Hrun.
  rewrite <- (token_reply_same_history env s s1 Hsent) in Hreply.
  unfold refresh_token, token_reply in *. run_in Hrun.
  rewrite Hreply in Hrun. simpl in Hrun. rewrite Hstatus in Hrun.
  simpl in Hrun. rewrite Hjson in Hrun. simpl in Hrun.
  rewrite Htok in Hrun. simpl in Hrun.
  unfold stated_lifetime in Hlifetime. simpl in Hlifetime.
  destruct (dict_get d "expires_in") as [expires_in |]; simpl in *.
  - rewrite Hlifetime in Hrun. simpl in Hrun.
    inversion Hrun; subst. simpl. auto.
  - inversion Hlifetime; subst. inversion Hrun; subst. simpl. auto.
Qed.

(** X15.  A 200 answer of the token endpoint that states no token (the
    body does not parse, is not an object, or has no [access_token]) is
    answered 500 and leaves the cache as it was. *)
Theorem grant_without_token_keeps_cache (env : Env) (s s' : State)
        (r : result FlaskResponse) (response : Response) (e : exn) :
  stale_at env s ->
  get_fatsecret_token env s = (r, s') ->
  token_reply env s = Ok response ->
  status_code response = 200 ->
  stated_token response = Raise e ->
  r = Ok (PDict [("error", PStr "Exception during token fetch");
                 ("details", PStr (exn_str e))],
          500)
  /\ cached_token s' = cached_token s
  /\ token_expiry s' = token_expiry s.
Proof.
  intros Hstale Hrun Hreply Hstatus Htoken.
  destruct (stale_view_is_refresh env s Hstale)
    as (s1 & [Hc1 Hc2] & Hsent & _ & Hview).
  rewrite Hview in Hrun.
  rewrite <- (token_reply_same_history env s s1 Hsent) in Hreply.
  unfold refresh_token, token_reply in *. run_in Hrun.
  rewrite Hreply in Hrun. simpl in Hrun. rewrite Hstatus in Hrun.
  simpl in Hrun. unfold stated_token, rbind in Htoken.
  destruct (json response) as [data | e']; simpl in Hrun.
  - rewrite Htoken in Hrun. simpl in Hrun. inversion Hrun; subst. simpl. auto.
  - inversion Htoken; subst. inversion Hrun; subst. simpl. auto.
Qed.

(** ** A refresh that fails ends the request *)





(** ** Passing the upstream answer on *)

(** X18.  The search, details and image views return the parsed body of
    an upstream 200 as it is, with status 200. *)
Theorem upstream_body_passed_through (env : Env) (route : Route)
        (s s' : State) (r : result FlaskResponse) (response : Response)
        (body : pyval) :
  passes_through route = true ->
  handle env route s = (r, s') ->
  upstream_reply env s s' = Some (Ok response) ->
  status_code response = 200 ->
  json response = Ok body ->
  r = Ok (body, 200).
Proof.
  intros Hroute Hrun Hreply Hstatus Hjson.
  assert (Hproxy : is_proxy route = true) by (destruct route; auto).
  destruct (upstream_reply_decides env route s r s' _ Hproxy Hrun Hreply)
    as [_ ->].
  unfold reply_to. rewrite Hstatus, Hjson.
  destruct route; try discriminate; reflexivity.
Qed.

(** X19.  The barcode view too passes a status other than 200 on, with
    the raw upstream text as [details]; its [error] names the barcode
    call. *)
Theorem barcode_upstream_error_passed_on (env : Env) (data : pyval)
        (s s' : State) (r : result FlaskResponse) (response : Response) :
  lookup_barcode env (Ok data) s = (r, s') ->
  upstream_reply env s s' = Some (Ok response) ->
  status_code response <> 200 ->
  r = Ok (PDict [("error",
                  PStr ("FatSecret API (barcode) returned status "
                          ++ str_of_int (status_code response)));
                 ("details", PStr (text response))],
          status_code response).
Proof.
  intros Hrun Hreply Hstatus.
  destruct (upstream_reply_decides env (PostBarcodeLookup (Ok data)) s r s' _
              eq_refl Hrun Hreply) as [_ ->].
  unfold reply_to. apply Z.eqb_neq in Hstatus. rewrite Hstatus. reflexivity.
Qed.

(** X20.  A 200 body that is JSON but no container (null, a boolean, a
    number) makes the membership test of the barcode view raise a
    TypeError; the view answers 500 "Unexpected exception during barcode
    lookup". *)
Theorem barcode_scalar_body_answers_500 (env : Env) (data : pyval)
        (s s' : State) (r : result FlaskResponse) (response : Response)
        (body : pyval) :
  lookup_barcode env (Ok data) s = (r, s') ->
  upstream_reply env s s' = Some (Ok response) ->
  status_code response = 200 ->
  json response = Ok body ->
  match body with
  | PNone | PBool _ | PInt _ | PFloat _ => True
  | _ => False
  end ->
  status_of r = Some 500
  /\ error_text r = Some "Unexpected exception during barcode lookup".
Proof.
  intros Hrun Hreply Hstatus Hjson Hscalar.
  destruct (upstream_reply_decides env (PostBarcodeLookup (Ok data)) s r s' _
              eq_refl Hrun Hreply) as [_ ->].
  unfold reply_to. rewrite Hstatus, Hjson.
  destruct body; try contradiction; split; reflexivity.
Qed.

(** ** A granted token serves the next request *)



(** ** The further properties on the scenarios *)

Lemma warm_is_fresh (response : Response) : fresh_at (always response) warm.
Proof.
  exists (new_year_2025 + 3600 * usec_per_second).
  split; [reflexivity | split; [reflexivity |]].
  vm_compute. reflexivity.
Qed.




(** A first search on the cold cache. *)
Lemma no_request_is_repeated_witness :
  exists pre post,
    new_requests cold (snd (handle (granting empty_object) apple_search cold))
    = (pre ++ post)%list
    /\ (pre = [] \/ pre = [token_request (granting empty_object)])
    /\ (post = [] \/ exists req, post = [req] /\ is_api_request req = true).
Proof.
  apply (no_request_is_repeated
           (granting empty_object) apple_search cold _
           (fst (handle (granting empty_object) apple_search cold))
           (surjective_pairing _)).
Defined.

(** The search of that run goes out under the token just granted. *)
Lemma api_request_bears_cached_token_witness :
  let req :=
    mkRequest fatsecret_url (Bearer (PStr "abc"))
              (FormData [("method", PStr "foods.search");
                         ("search_expression", PStr "apple");
                         ("format", PStr "json");
                         ("page_number", PStr "0");
                         ("max_results", PStr "10")]) in
  authorization req
  = Bearer (cached_token
              (snd (handle (granting empty_object) apple_search cold)))
  /\ Some (payload req) = payload_of apple_search.
Proof.
  intros req.
  apply (api_request_bears_cached_token
           (granting empty_object) apple_search cold _
           (fst (handle (granting empty_object) apple_search cold)) req
           (surjective_pairing _)).
  - right. left. reflexivity.
  - reflexivity.
Defined.

(** A search on the warm cache posts no token request. *)
Lemma cache_changes_only_by_refresh_witness :
  cached_token (snd (handle (always empty_object) apple_search warm))
  = cached_token warm
  /\ token_expiry (snd (handle (always empty_object) apple_search warm))
     = token_expiry warm.
Proof.
  apply (cache_changes_only_by_refresh
           (always empty_object) apple_search warm _
           (fst (handle (always empty_object) apple_search warm))
           (surjective_pairing _)).
  reflexivity.
Defined.

(** The details of a food, with the food API out of reach. *)
Lemma transport_failure_answers_500_witness :
  fst (handle unreachable_env
              (PostFoodDetails (Ok (PDict [("food_id", PStr "12345")]))) warm)
  = Ok (PDict [("error",
                PStr "Exception during FatSecret food details request");
               ("details", PStr "no route to host")],
        500).
Proof.
  apply (transport_failure_answers_500
           unreachable_env
           (PostFoodDetails (Ok (PDict [("food_id", PStr "12345")]))) warm
           (snd (handle unreachable_env
                        (PostFoodDetails (Ok (PDict [("food_id", PStr "12345")])))
                        warm))
           _ (mkExn RequestException "no route to host")
           eq_refl (surjective_pairing _));
    reflexivity.
Defined.

(** A page of HTML under status 200, as [requests] reports it. *)
Lemma undecodable_body_answers_500_witness :
  let page :=
    mkResponse 200 "<html>"
               (Raise (mkExn RequestsJSONDecodeError "Expecting value")) in
  fst (handle (always page) apple_search warm)
  = Ok (PDict [("error", PStr "Exception during FatSecret search request");
               ("details", PStr "Expecting value")],
        500).
Proof.
  intros page.
  apply (undecodable_body_answers_500
           (always page) apple_search warm
           (snd (handle (always page) apple_search warm))
           _ page (mkExn RequestsJSONDecodeError "Expecting value")
           eq_refl (surjective_pairing _));
    reflexivity.
Defined.


(** A search whose body is the array [1]. *)
Lemma non_object_body_escapes_witness :
  handle (always grant) (PostSearch (Ok (PList [PInt 1]))) cold
  = (Raise (mkExn AttributeError "'list' object has no attribute 'get'"),
     cold).
Proof.
  apply (non_object_body_escapes
           (always grant) (PostSearch (Ok (PList [PInt 1]))) (PList [PInt 1]) cold);
    reflexivity.
Defined.

(** The miss FatSecret reports for an unknown barcode. *)
Lemma barcode_code_106_is_not_found_witness :
  let body :=
    [("error", PDict [("code", PInt 106); ("message", PStr "No item found")])]
  in
  fst (lookup_barcode (always (mkResponse 200 "" (Ok (PDict body))))
                      barcode_data warm)
  = Ok (PDict [("error", PStr "Food not found for this barcode")], 404).
Proof.
  intros body.
  apply (barcode_code_106_is_not_found
           (always (mkResponse 200 "" (Ok (PDict body)))) barcode_body warm
           (snd (lookup_barcode (always (mkResponse 200 "" (Ok (PDict body))))
                                barcode_data warm))
           _ (mkResponse 200 "" (Ok (PDict body))) body
           [("code", PInt 106); ("message", PStr "No item found")] (PInt 106)
           (surjective_pairing _));
    reflexivity.
Defined.

(** A [food_id] given as a plain string, not as an object with a value. *)
Lemma barcode_unexpected_shape_is_404_witness :
  let body := [("food_id", PStr "999"); ("food_name", PStr "Oat bar")] in
  fst (lookup_barcode (always (mkResponse 200 "" (Ok (PDict body))))
                      barcode_data warm)
  = Ok (PDict [("error", PStr "Food not found or unexpected API response.")],
        404).
Proof.
  intros body.
  apply (barcode_unexpected_shape_is_404
           (always (mkResponse 200 "" (Ok (PDict body)))) barcode_body warm
           (snd (lookup_barcode (always (mkResponse 200 "" (Ok (PDict body))))
                                barcode_data warm))
           _ (mkResponse 200 "" (Ok (PDict body))) body
           (surjective_pairing _));
    reflexivity.
Defined.

(** A body with a usable [food_id] and a warning in [error]. *)
Lemma barcode_found_with_error_is_404_witness :
  let body :=
    [("food_id", PDict [("value", PStr "999")]);
     ("error", PDict [("message", PStr "Deprecated")])] in
  fst (lookup_barcode (always (mkResponse 200 "" (Ok (PDict body))))
                      barcode_data warm)
  = Ok (PDict [("error", PStr "Food not found for this barcode");
               ("details", PStr "Deprecated")],
        404).
Proof.
  intros body.
  apply (barcode_found_with_error_is_404
           (always (mkResponse 200 "" (Ok (PDict body)))) barcode_body warm
           (snd (lookup_barcode (always (mkResponse 200 "" (Ok (PDict body))))
                                barcode_data warm))
           _ (mkResponse 200 "" (Ok (PDict body))) body
           [("message", PStr "Deprecated")] (PStr "Deprecated")
           (surjective_pairing _));
    reflexivity.
Defined.

(** The warm cache, an hour before its expiry. *)
Lemma cached_lifetime_is_below_a_day_witness :
  exists n,
    fst (get_fatsecret_token (always grant) warm)
    = Ok (PDict [("access_token", PStr "abc"); ("expires_in", PInt n)], 200)
    /\ 0 <= n <= 86399.
Proof.
  apply (cached_lifetime_is_below_a_day (always grant) warm
                                        (warm_is_fresh grant)).
Defined.

(** A grant that states the token and nothing else. *)
Lemma grant_without_lifetime_half_stored_witness :
  let bare :=
    mkResponse 200 "" (Ok (PDict [("access_token", PStr "abc")])) in
  let s' := snd (get_fatsecret_token (always bare) cold) in
  fst (get_fatsecret_token (always bare) cold)
  = Ok (PDict [("error", PStr "Exception during token fetch");
               ("details", PStr "'expires_in'")],
        500)
  /\ cached_token s' = PStr "abc"
  /\ token_expiry s' = None.
Proof.
  intros bare s'.
  apply (grant_without_lifetime_half_stored
           (always bare) cold s' _ bare
           [("access_token", PStr "abc")] (PStr "abc")
           (mkExn KeyError "'expires_in'")
           (or_introl eq_refl) (surjective_pairing _));
    reflexivity.
Defined.

(** A 200 from the token endpoint with an empty object. *)
Lemma grant_without_token_keeps_cache_witness :
  let s' := snd (get_fatsecret_token (always empty_object) cold) in
  fst (get_fatsecret_token (always empty_object) cold)
  = Ok (PDict [("error", PStr "Exception during token fetch");
               ("details", PStr "'access_token'")],
        500)
  /\ cached_token s' = PNone
  /\ token_expiry s' = None.
Proof.
  intros s'.
  apply (grant_without_token_keeps_cache
           (always empty_object) cold s' _ empty_object
           (mkExn KeyError "'access_token'")
           (or_introl eq_refl) (surjective_pairing _));
    reflexivity.
Defined.



(** A search whose upstream body is an empty object. *)
Lemma upstream_body_passed_through_witness :
  fst (handle (always empty_object) apple_search warm) = Ok (PDict [], 200).
Proof.
  apply (upstream_body_passed_through
           (always empty_object) apple_search warm
           (snd (handle (always empty_object) apple_search warm))
           _ empty_object (PDict []) eq_refl (surjective_pairing _));
    reflexivity.
Defined.

(** A lookup answered 503 by the food API. *)
Lemma barcode_upstream_error_passed_on_witness :
  let busy := mkResponse 503 "Service Unavailable"
                         (Raise (mkExn JSONDecodeError "Expecting value")) in
  fst (lookup_barcode (always busy) barcode_data warm)
  = Ok (PDict [("error",
                PStr "FatSecret API (barcode) returned status 503");
               ("details", PStr "Service Unavailable")],
        503).
Proof.
  intros busy.
  apply (barcode_upstream_error_passed_on
           (always busy) barcode_body warm
           (snd (lookup_barcode (always busy) barcode_data warm))
           _ busy (surjective_pairing _));
    [reflexivity | discriminate].
Defined.

(** A lookup whose upstream body is null. *)
Lemma barcode_scalar_body_answers_500_witness :
  let null := mkResponse 200 "null" (Ok PNone) in
  status_of (fst (lookup_barcode (always null) barcode_data warm)) = Some 500
  /\ error_text (fst (lookup_barcode (always null) barcode_data warm))
     = Some "Unexpected exception during barcode lookup".
Proof.
  intros null.
  apply (barcode_scalar_body_answers_500
           (always null) barcode_body warm
           (snd (lookup_barcode (always null) barcode_data warm))
           _ null PNone (surjective_pairing _));
    first [reflexivity | exact I].
Defined.

